(** * streamlit_meta_state: session-backed attributes and keyed instances

    A shallow embedding of [src/streamlit_meta_state/core.py]: the
    [SessionVar] descriptor with its [_Wrapper], and the [MetaSessionState]
    metaclass.  Python objects live in a heap indexed by locations, the
    Streamlit session state is a finite map from string keys to values, and
    every operation of the source is a computation over that world which
    either returns or raises. *)

From Stdlib Require Import ZArith String List.
From stdpp Require Import base option gmap strings list fin_maps pretty.

Set Warnings "-register-all".
Open Scope string_scope.

(** ** Values *)

(** Object identity: a location of the heap. *)
Definition loc := positive.

(** What a [float] is worth: not a number, an infinity, or the number
    [m * 2 ^ e]. *)
Inductive float_value : Type :=
  | FNaN
  | FInfinity (negative : bool)
  | FFinite (m e : Z).

(** The values that fields, arguments and the session state hold.  A
    [float] object carries its identity beside its worth, because comparing
    tuples asks [x is y] before [x == y] and the two differ on a NaN.  A
    [_Wrapper] is built by [_Wrapper.__init__] through [object.__setattr__]
    and its four slots are never rebound afterwards (its [__setattr__]
    refuses them), so it is carried as the tuple of its slots, without an
    identity of its own.  A [SessionVar] holds nothing but its [name].
    Instances are those of classes that define no special method. *)
Inductive value : Type :=
  | VNone
  | VBool (b : bool)
  | VInt (z : Z)
  | VFloat (ident : positive) (f : float_value)
  | VStr (s : string)
  | VTuple (items : list value)
  | VRef (l : loc)
  | VSessionVar (name : string)
  | VWrapper (_value : value) (_key : string) (_descriptor : string) (_instance : loc).

(** Exceptions raised by the modelled code.  [Unsupported] marks the
    places where execution leaves the fragment of Python described here
    (a dangling location, rebinding an attribute of a descriptor object). *)
Inductive exn : Type :=
  | KeyError
  | AttributeError
  | TypeError
  | IndexError
  | RecursionError
  | StreamlitAPIException
  | Unsupported.

Inductive outcome (A : Type) : Type :=
  | Ok (a : A)
  | Raise (e : exn).
Arguments Ok {A} a.
Arguments Raise {A} e.

(** ** Classes, objects, the world *)

(** What a class namespace binds a name to: an ordinary object, or the
    [__annotations__] dictionary, of which only the keys (in order) matter. *)
Inductive cattr : Type :=
  | CValue (v : value)
  | CAnnotations (names : list string).

(** A class as [type.__new__] leaves it: its name, its bases and its own
    namespace. *)
Inductive class : Type :=
  | Class (cls__name__ : string) (cls__bases__ : list class)
          (cls__dict__ : gmap string cattr).

Definition cls__name__ (cls : class) : string :=
  match cls with Class n _ _ => n end.
Definition cls__bases__ (cls : class) : list class :=
  match cls with Class _ b _ => b end.
Definition cls__dict__ (cls : class) : gmap string cattr :=
  match cls with Class _ _ d => d end.

(** An instance: its class and its [__dict__]. *)
Record obj : Type := Obj {
  obj_class : class;
  obj__dict__ : gmap string value }.

(** The world: the heap of instances and the session state that
    [get_session_state()] returns. *)
Record world : Type := World {
  heap : gmap loc obj;
  session_state : gmap string value }.

(** ** Computations that return or raise *)

Definition py (A : Type) : Type := world → outcome A * world.

Definition py_ret {A} (a : A) : py A := λ w, (Ok a, w).
Definition py_raise {A} (e : exn) : py A := λ w, (Raise e, w).
Definition py_bind {A B} (m : py A) (k : A → py B) : py B :=
  λ w, match m w with
       | (Ok a, w') => k a w'
       | (Raise e, w') => (Raise e, w')
       end.
Definition py_lift {A} (o : outcome A) : py A := λ w, (o, w).

#[global] Instance py_mret : MRet py := @py_ret.
#[global] Instance py_mbind : MBind py := λ A B k m, py_bind m k.

Definition get_heap : py (gmap loc obj) := λ w, (Ok (heap w), w).

(** *** The session state (streamlit's [SafeSessionState]) *)

(** [key in state] *)
Definition state_contains (key : string) : py bool :=
  λ w, (Ok (bool_decide (is_Some (session_state w !! key))), w).

(** [state[key]] *)
Definition state_getitem (key : string) : py value :=
  λ w, match session_state w !! key with
       | Some v => (Ok v, w)
       | None => (Raise KeyError, w)
       end.

(** [state[key] = value] *)
Definition state_setitem (key : string) (v : value) : py unit :=
  λ w, (Ok tt, World (heap w) (<[key := v]> (session_state w))).

(** *** Instance dictionaries and allocation *)

(** [object.__new__(cls)]: a fresh instance with an empty [__dict__]. *)
Definition object__new__ (cls : class) : py loc :=
  λ w, let l := fresh (dom (heap w)) in
       (Ok l, World (<[l := Obj cls ∅]> (heap w)) (session_state w)).

(** [instance.__dict__[name] = v] *)
Definition instance__dict__setitem (instance : loc) (name : string) (v : value)
  : py unit :=
  λ w, match heap w !! instance with
       | Some o =>
           (Ok tt, World (<[instance := Obj (obj_class o) (<[name := v]> (obj__dict__ o))]> (heap w))
                         (session_state w))
       | None => (Raise Unsupported, w)
       end.

(** ** What the development takes from outside the repository *)

(** - [valid_user_key]: the rule behind streamlit's
      [require_valid_user_key];
    - [py_repr]: Python's [repr] on floats, tuples, descriptors and plain
      objects (shortest digits, quoting rules, memory addresses);
    - [interp_attr]: what ordinary attribute lookup finds on a value through
      the interpreter's own types (methods of [str], [object.__class__], the
      methods of [_Wrapper] itself), or [None] when it finds nothing;
    - [user__init__]: the effect of calling [instance.__init__] with the
      remaining arguments, that is, the initializer the application wrote
      for the class. *)
Class Host : Type := {
  valid_user_key : string → bool;
  py_repr : value → string;
  interp_attr : value → string → option (outcome value);
  user__init__ : class → loc → list value → gmap string value → py unit }.

(** [require_valid_user_key(key)] *)
Definition require_valid_user_key `{Host} (key : string) : py unit :=
  if valid_user_key key then py_ret tt else py_raise StreamlitAPIException.

(** ** Python's protocols on values *)

(** The text an f-string puts for [{v}].  A wrapper answers through its
    [__str__], which is [str(self._value)]. *)
Fixpoint py_format `{Host} (v : value) : string :=
  match v with
  | VNone => "None"
  | VBool true => "True"
  | VBool false => "False"
  | VInt z => pretty z
  | VStr s => s
  | VWrapper _value _ _ _ => py_format _value
  | VFloat _ _ | VTuple _ | VRef _ | VSessionVar _ => py_repr v
  end.

(** The value found under any number of wrappers. *)
Fixpoint unwrap (v : value) : value :=
  match v with
  | VWrapper _value _ _ _ => unwrap _value
  | _ => v
  end.

(** [x == y] on two floats. *)
Definition float_eqb (x y : float_value) : bool :=
  match x, y with
  | FFinite m1 e1, FFinite m2 e2 =>
      let e := Z.min e1 e2 in
      (m1 * 2 ^ (e1 - e) =? m2 * 2 ^ (e2 - e))%Z
  | FInfinity a, FInfinity b => bool_decide (a = b)
  | _, _ => false
  end.

(** [x == z] on a float and an [int]: Python compares the exact numbers. *)
Definition float_eq_int (x : float_value) (z : Z) : bool :=
  match x with
  | FFinite m e =>
      if (0 <=? e)%Z then (m * 2 ^ e =? z)%Z else (m =? z * 2 ^ (- e))%Z
  | _ => false
  end.

(** [x is y], where the answer can change a comparison: on two floats. *)
Definition same_float_object (x y : value) : bool :=
  match x, y with
  | VFloat i _, VFloat j _ => bool_decide (i = j)
  | _, _ => false
  end.

(** [a == b].  [_Wrapper.__eq__] is [self._value == other]; the builtin
    types answer [NotImplemented] for a wrapper on the right, so Python
    asks the wrapper, which again compares its [_value]: the comparison is
    between [a] and what [b] wraps.  Tuples compare item by item, an item
    being equal to itself as an object before [==] is asked.  Plain objects
    compare by identity, descriptors by the name they carry. *)
Fixpoint py_eq (a b : value) {struct a} : bool :=
  match a with
  | VWrapper _value _ _ _ => py_eq _value b
  | VNone => match unwrap b with VNone => true | _ => false end
  | VBool x =>
      match unwrap b with
      | VBool y => bool_decide (x = y)
      | VInt z => bool_decide (Z.b2z x = z)
      | VFloat _ g => float_eq_int g (Z.b2z x)
      | _ => false
      end
  | VInt z =>
      match unwrap b with
      | VInt z' => bool_decide (z = z')
      | VBool y => bool_decide (z = Z.b2z y)
      | VFloat _ g => float_eq_int g z
      | _ => false
      end
  | VFloat _ f =>
      match unwrap b with
      | VFloat _ g => float_eqb f g
      | VInt z => float_eq_int f z
      | VBool y => float_eq_int f (Z.b2z y)
      | _ => false
      end
  | VStr s => match unwrap b with VStr s' => bool_decide (s = s') | _ => false end
  | VTuple xs =>
      match unwrap b with
      | VTuple ys =>
          (fix pairwise (xs ys : list value) {struct xs} : bool :=
             match xs, ys with
             | [], [] => true
             | x :: xs', y :: ys' =>
                 (same_float_object x y || py_eq x y) && pairwise xs' ys'
             | _, _ => false
             end) xs ys
      | _ => false
      end
  | VRef l => match unwrap b with VRef l' => bool_decide (l = l') | _ => false end
  | VSessionVar n =>
      match unwrap b with VSessionVar n' => bool_decide (n = n') | _ => false end
  end.

(** [v] holds no NaN, at any depth. *)
Fixpoint nan_free (v : value) : bool :=
  match v with
  | VFloat _ FNaN => false
  | VTuple items => forallb nan_free items
  | VWrapper _value _ _ _ => nan_free _value
  | _ => true
  end.

(** An index usable on a sequence: an [int] (or a [bool], its subclass). *)
Definition as_index (i : value) : option Z :=
  match i with
  | VInt z => Some z
  | VBool b => Some (Z.b2z b)
  | _ => None
  end.

(** [xs[z]] on a sequence: negative indices count from the end. *)
Definition seq_getitem {A} (xs : list A) (z : Z) : outcome A :=
  let n := Z.of_nat (length xs) in
  let j := if (z <? 0)%Z then (z + n)%Z else z in
  if (j <? 0)%Z then Raise IndexError
  else match xs !! Z.to_nat j with
       | Some x => Ok x
       | None => Raise IndexError
       end.

(** A [str] is kept as its UTF-8 text; Python indexes, iterates and
    measures it by code point.  A byte [10xxxxxx] continues the code point
    begun before it. *)
Definition is_continuation_byte (c : Ascii.ascii) : bool :=
  let n := Ascii.nat_of_ascii c in (128 <=? n)%nat && (n <? 192)%nat.

(** The bytes that continue a code point begun earlier, then the code
    points of the rest. *)
Fixpoint code_points_from (s : string) : string * list string :=
  match s with
  | EmptyString => (EmptyString, [])
  | String c rest =>
      let '(pending, points) := code_points_from rest in
      if is_continuation_byte c then (String c pending, points)
      else (EmptyString, String c pending :: points)
  end.

Definition code_points (s : string) : list string :=
  let '(pending, points) := code_points_from s in
  match pending with
  | EmptyString => points
  | _ => pending :: points
  end.

Definition chars (s : string) : list value := VStr <$> code_points s.

(** [v[item]]; [_Wrapper.__getitem__] is [self._value[item]]. *)
Fixpoint py_getitem (v item : value) : outcome value :=
  match v with
  | VWrapper _value _ _ _ => py_getitem _value item
  | VStr s =>
      match as_index item with
      | Some z => seq_getitem (chars s) z
      | None => Raise TypeError
      end
  | VTuple xs =>
      match as_index item with
      | Some z => seq_getitem xs z
      | None => Raise TypeError
      end
  | _ => Raise TypeError
  end.

(** [iter(v)], as the items the iterator yields; [_Wrapper.__iter__] is
    [iter(self._value)]. *)
Fixpoint py_iter (v : value) : outcome (list value) :=
  match v with
  | VWrapper _value _ _ _ => py_iter _value
  | VStr s => Ok (chars s)
  | VTuple xs => Ok xs
  | _ => Raise TypeError
  end.

(** [len(v)]; [_Wrapper.__len__] is [len(self._value)]. *)
Fixpoint py_len (v : value) : outcome Z :=
  match v with
  | VWrapper _value _ _ _ => py_len _value
  | VStr s => Ok (Z.of_nat (length (code_points s)))
  | VTuple xs => Ok (Z.of_nat (length xs))
  | _ => Raise TypeError
  end.

(** ** Attribute lookup *)

(** Classes are told apart by what they are made of. *)
#[global] Instance float_value_eq_dec : EqDecision float_value.
Proof. solve_decision. Defined.

#[global] Instance value_eq_dec : EqDecision value.
Proof.
  refine (fix go (x y : value) {struct x} : Decision (x = y) :=
    match x, y with
    | VNone, VNone => left _
    | VBool a, VBool b => cast_if (decide (a = b))
    | VInt a, VInt b => cast_if (decide (a = b))
    | VFloat i f, VFloat j g => cast_if_and (decide (i = j)) (decide (f = g))
    | VStr a, VStr b => cast_if (decide (a = b))
    | VTuple xs, VTuple ys => cast_if (@list_eq_dec _ go xs ys)
    | VRef a, VRef b => cast_if (decide (a = b))
    | VSessionVar a, VSessionVar b => cast_if (decide (a = b))
    | VWrapper v k d i, VWrapper v' k' d' i' =>
        cast_if_and4 (go v v') (decide (k = k')) (decide (d = d')) (decide (i = i'))
    | _, _ => right _
    end); abstract congruence.
Defined.

#[global] Instance cattr_eq_dec : EqDecision cattr.
Proof. solve_decision. Defined.

#[global] Instance class_eq_dec : EqDecision class.
Proof.
  refine (fix go (x y : class) {struct x} : Decision (x = y) :=
    match x, y with
    | Class n b d, Class n' b' d' =>
        cast_if_and3 (decide (n = n')) (@list_eq_dec _ go b b') (decide (d = d'))
    end); abstract congruence.
Defined.

(** *** The method resolution order (C3) *)

(** [c] occurs in [s] after its first place. *)
Definition in_tail (c : class) (s : list class) : bool :=
  match s with
  | [] => false
  | _ :: t => bool_decide (c ∈ t)
  end.

(** The first head of a sequence that occurs in the tail of none. *)
Definition c3_candidate (seqs : list (list class)) : option class :=
  head (omap (λ s, match s with
                   | c :: _ => if existsb (in_tail c) seqs then None else Some c
                   | [] => None
                   end) seqs).

Definition c3_drop (c : class) (s : list class) : list class :=
  match s with
  | h :: t => if bool_decide (h = c) then t else s
  | [] => []
  end.

(** The merge of C3; [None] when no head can be taken, the case in which
    Python finds no consistent order.  Every step takes a class away, so
    the number of classes in [seqs] is fuel enough. *)
Fixpoint c3_merge (fuel : nat) (seqs : list (list class)) : option (list class) :=
  match filter (λ s, s ≠ []) seqs with
  | [] => Some []
  | live =>
      match fuel with
      | 0 => None
      | S fuel' =>
          match c3_candidate live with
          | None => None
          | Some c =>
              match c3_merge fuel' (c3_drop c <$> live) with
              | Some rest => Some (c :: rest)
              | None => None
              end
          end
      end
  end.

(** [cls.__mro__]: the class, then the merge of the orders of its bases
    and of the list of bases. *)
Fixpoint mro (cls : class) : option (list class) :=
  match cls with
  | Class _ bases _ =>
      match (fix each (bs : list class) : option (list (list class)) :=
               match bs with
               | [] => Some []
               | b :: bs' =>
                   match mro b, each bs' with
                   | Some l, Some ls => Some (l :: ls)
                   | _, _ => None
                   end
               end) bases with
      | Some orders =>
          let seqs := (orders ++ [bases])%list in
          match c3_merge (length (concat seqs)) seqs with
          | Some rest => Some (cls :: rest)
          | None => None
          end
      | None => None
      end
  end.

(** The classes whose namespaces are consulted for an attribute of [cls],
    in order.  ([type.__new__] refuses bases that have no consistent order;
    that refusal is not part of this development, and such a class is looked
    up in its own namespace only.) *)
Definition resolution_order (cls : class) : list class :=
  default [cls] (mro cls).

(** The classes consulted after the class itself: the merged orders of
    its bases. *)
Definition bases_order (bases : list class) : list class :=
  tail (resolution_order (Class "" bases ∅)).

Fixpoint namespaces_lookup (nss : list (gmap string cattr)) (name : string)
  : option cattr :=
  match nss with
  | [] => None
  | ns :: rest =>
      match ns !! name with
      | Some a => Some a
      | None => namespaces_lookup rest name
      end
  end.

(** The binding that [type(instance)] offers for [name]. *)
Definition type_lookup (cls : class) (name : string) : option cattr :=
  namespaces_lookup (cls__dict__ <$> resolution_order cls) name.

(** [instance.item] by [object.__getattribute__]: a [SessionVar] found on
    the class is a data descriptor and wins; then the instance dictionary;
    then a plain class attribute.  [descr_get] is what invoking the
    descriptor does. *)
Definition object__getattribute__ `{Host} (descr_get : string → loc → py value)
    (instance : loc) (item : string) : py value :=
  h ← get_heap;
  match h !! instance with
  | None => py_raise Unsupported
  | Some o =>
      match type_lookup (obj_class o) item with
      | Some (CValue (VSessionVar name)) => descr_get name instance
      | found =>
          match obj__dict__ o !! item with
          | Some v => mret v
          | None =>
              match found with
              | Some (CValue v) => mret v
              | Some (CAnnotations _) => py_raise Unsupported
              | None =>
                  match interp_attr (VRef instance) item with
                  | Some r => py_lift r
                  | None => py_raise AttributeError
                  end
              end
          end
      end
  end.

(** ** SessionVar *)

(** [SessionVar._make_key].  Were [__instance_key__] itself bound to a
    [SessionVar] on the class, reading it would enter [__get__], which
    calls [_make_key] again, without end: Python reports [RecursionError]. *)
Definition SessionVar_make_key `{Host} (name : string) (instance : loc)
  : py string :=
  instance_key ← object__getattribute__ (λ _ _, py_raise RecursionError)
                   instance "__instance_key__";
  mret (py_format instance_key +:+ "." +:+ name).

(** [SessionVar.__get__(self, instance, owner)], [self] being the
    descriptor named [name]. *)
Definition SessionVar__get__ `{Host} (name : string) (instance : option loc)
  : py value :=
  match instance with
  | None => mret (VSessionVar name)
  | Some instance =>
      key ← SessionVar_make_key name instance;
      require_valid_user_key key;;
      present ← state_contains key;
      value ← (if present : bool then state_getitem key else mret VNone);
      let wrapped := VWrapper value key name instance in
      instance__dict__setitem instance name wrapped;;
      mret wrapped
  end.

(** [SessionVar.__set__(self, instance, value)] *)
Definition SessionVar__set__ `{Host} (name : string) (instance : loc)
    (value : value) : py unit :=
  key ← SessionVar_make_key name instance;
  require_valid_user_key key;;
  let wrapped := VWrapper value key name instance in
  instance__dict__setitem instance name wrapped;;
  state_setitem key value.

(** [instance.name = v] by [object.__setattr__]: through the descriptor
    when the class binds one, into the instance dictionary otherwise. *)
Definition object__setattr__ `{Host} (instance : loc) (name : string)
    (v : value) : py unit :=
  h ← get_heap;
  match h !! instance with
  | None => py_raise Unsupported
  | Some o =>
      match type_lookup (obj_class o) name with
      | Some (CValue (VSessionVar descriptor)) =>
          SessionVar__set__ descriptor instance v
      | _ => instance__dict__setitem instance name v
      end
  end.

(** [cls.name] by [type.__getattribute__]: a [SessionVar] found on the class
    is asked through [__get__(None, cls)]; a plain attribute is returned as
    it is. *)
Definition type__getattribute__ `{Host} (cls : class) (name : string) : py value :=
  match type_lookup cls name with
  | Some (CValue (VSessionVar descriptor)) => SessionVar__get__ descriptor None
  | Some (CValue v) => mret v
  | Some (CAnnotations _) => py_raise Unsupported
  | None => py_raise AttributeError
  end.

(** ** _Wrapper *)

Definition Wrapper_slots : list string :=
  ["_value"; "_key"; "_descriptor"; "_instance"].

Definition name_in (item : string) (names : list string) : bool :=
  bool_decide (item ∈ names).

(** [object.__getattribute__(self, item)] on the four slots that
    [_Wrapper.__init__] fills. *)
Definition Wrapper_slot (_value : value) (_key _descriptor : string)
    (_instance : loc) (item : string) : option value :=
  if bool_decide (item = "_value") then Some _value
  else if bool_decide (item = "_key") then Some (VStr _key)
  else if bool_decide (item = "_descriptor") then Some (VSessionVar _descriptor)
  else if bool_decide (item = "_instance") then Some (VRef _instance)
  else None.

(** The [key] property. *)
Definition Wrapper_key (self : value) : outcome value :=
  match self with
  | VWrapper _value _key _descriptor _instance =>
      match Wrapper_slot _value _key _descriptor _instance "_key" with
      | Some k => Ok k
      | None => Raise AttributeError
      end
  | _ => Raise TypeError
  end.

(** [_Wrapper.__getattr__(self, item)], the hook Python calls when ordinary
    lookup found nothing; [slot] reads the instance dictionary of [self]
    and [getattr_value] is [getattr(self._value, _)]. *)
Definition Wrapper__getattr__ (slot : string → option value)
    (getattr_value : string → py value) (item : string) : py value :=
  if name_in item Wrapper_slots then
    match slot item with
    | Some v => py_ret v
    | None => py_raise AttributeError
    end
  else getattr_value item.

(** [_Wrapper.__setattr__(self, name, value)]; [setattr_value] is
    [setattr(self._value, _, _)]. *)
Definition Wrapper__setattr__ (setattr_value : string → value → py unit)
    (name : string) (value : value) : py unit :=
  if name_in name Wrapper_slots then py_raise AttributeError
  else setattr_value name value.

(** [getattr(v, item)].  On a wrapper: the [key] property first, then the
    slots, then whatever else ordinary lookup finds, and only then
    [__getattr__]. *)
Fixpoint py_getattr `{Host} (v : value) (item : string) : py value :=
  match v with
  | VWrapper _value _key _descriptor _instance =>
      let slot := Wrapper_slot _value _key _descriptor _instance in
      if bool_decide (item = "key") then py_lift (Wrapper_key v)
      else match slot item with
           | Some x => py_ret x
           | None =>
               match interp_attr v item with
               | Some r => py_lift r
               | None => Wrapper__getattr__ slot (py_getattr _value) item
               end
           end
  | VRef instance =>
      object__getattribute__ (λ name i, SessionVar__get__ name (Some i))
        instance item
  | _ =>
      match interp_attr v item with
      | Some r => py_lift r
      | None => py_raise AttributeError
      end
  end.

(** [setattr(v, name, x)].  Every assignment on a wrapper goes through
    [_Wrapper.__setattr__]; the builtin values accept none. *)
Fixpoint py_setattr `{Host} (v : value) (name : string) (x : value) : py unit :=
  match v with
  | VWrapper _value _ _ _ => Wrapper__setattr__ (py_setattr _value) name x
  | VRef instance => object__setattr__ instance name x
  | VSessionVar _ => py_raise Unsupported
  | _ => py_raise AttributeError
  end.

(** ** MetaSessionState *)

(** [cls.__module__]: the entry of the class's own namespace. *)
Definition class__module__ (cls : class) : py value :=
  match cls__dict__ cls !! "__module__" with
  | Some (CValue v) => py_ret v
  | _ => py_raise AttributeError
  end.

(** The instance key that [__call__] derives. *)
Definition make_instance_key `{Host} (module : value) (name : string)
    (instance_key : value) : string :=
  py_format module +:+ "_" +:+ name +:+ "_" +:+ py_format instance_key.

(** [MetaSessionState.__call__(cls, *args, **kwargs)] *)
Definition MetaSessionState__call__ `{Host} (cls : class) (args : list value)
    (kwargs : gmap string value) : py value :=
  match kwargs !! "instance_key" with
  | None => py_raise KeyError
  | Some instance_key =>
      let kwargs := delete "instance_key" kwargs in
      module ← class__module__ cls;
      let instance_key := make_instance_key module (cls__name__ cls) instance_key in
      require_valid_user_key instance_key;;
      present ← state_contains instance_key;
      (if present : bool then mret tt
       else
         instance ← object__new__ cls;
         object__setattr__ instance "__instance_key__" (VStr instance_key);;
         user__init__ cls instance args kwargs;;
         state_setitem instance_key (VRef instance));;
      state_getitem instance_key
  end.

(** The names a [for var_name in ...] loop draws from the annotations. *)
Definition annotation_names (annotations : cattr) : outcome (list value) :=
  match annotations with
  | CAnnotations names => Ok (VStr <$> names)
  | CValue v => py_iter v
  end.

(** [setattr(new_class, var_name, v)] for a [str] name: the binding enters
    the namespace of the class. *)
Definition type__setattr__ (new_class : class) (var_name : string) (v : value)
  : class :=
  Class (cls__name__ new_class) (cls__bases__ new_class)
        (<[var_name := CValue v]> (cls__dict__ new_class)).

(** The loop of [__new__]: [setattr(new_class, var_name, SessionVar(var_name))]
    for each name drawn; [setattr] refuses a name that is not a [str]. *)
Fixpoint bind_session_vars (new_class : class) (names : list value)
  : outcome class :=
  match names with
  | [] => Ok new_class
  | VStr var_name :: rest =>
      bind_session_vars
        (type__setattr__ new_class var_name (VSessionVar var_name)) rest
  | _ :: _ => Raise TypeError
  end.

(** [MetaSessionState.__new__(mcs, name, bases, class_dict)] *)
Definition MetaSessionState__new__ (name : string) (bases : list class)
    (class_dict : gmap string cattr) : outcome class :=
  let new_class := Class name bases class_dict in
  match annotation_names (default (CAnnotations []) (class_dict !! "__annotations__")) with
  | Ok names => bind_session_vars new_class names
  | Raise e => Raise e
  end.

#[global] Arguments SessionVar_make_key : simpl never.
#[global] Arguments SessionVar__get__ : simpl never.
#[global] Arguments SessionVar__set__ : simpl never.
#[global] Arguments object__getattribute__ : simpl never.
#[global] Arguments object__setattr__ : simpl never.
#[global] Arguments MetaSessionState__call__ : simpl never.
#[global] Arguments type__getattribute__ : simpl never.

(** ** Derived notions used by the statements *)

(** The field key of [name] on an instance whose instance key is [ik]. *)
Definition field_key `{Host} (ik : value) (name : string) : string :=
  py_format ik +:+ "." +:+ name.

(** The stamp [__instance_key__] that an instance carries in its
    dictionary, provided its class does not bind that name to a descriptor. *)
Definition instance_key_of (w : world) (instance : loc) : option value :=
  match heap w !! instance with
  | Some o =>
      match type_lookup (obj_class o) "__instance_key__" with
      | Some (CValue (VSessionVar _)) => None
      | _ => obj__dict__ o !! "__instance_key__"
      end
  | None => None
  end.

(** The class of a live instance. *)
Definition class_of (w : world) (instance : loc) : option class :=
  obj_class <$> heap w !! instance.

(** [f] is a store-backed field of the instance: its class (or a base)
    binds [f] to the [SessionVar] named [f]. *)
Definition session_field (w : world) (instance : loc) (f : string) : bool :=
  match class_of w instance with
  | Some cls =>
      match type_lookup cls f with
      | Some (CValue (VSessionVar name)) => bool_decide (name = f)
      | _ => false
      end
  | None => false
  end.

(** The world once [instance.__dict__[name] = x] has run on the live
    object [o], with [st] for session state. *)
Definition cached (w : world) (instance : loc) (o : obj) (name : string)
    (x : value) (st : gmap string value) : world :=
  World (<[instance := Obj (obj_class o) (<[name := x]> (obj__dict__ o))]> (heap w)) st.

(** The world in which [__call__] hands a new instance of [cls] to its
    initializer: allocated at a fresh location and stamped with [ik]. *)
Definition stamped_world (w : world) (cls : class) (ik : string) : world :=
  World (<[fresh (dom (heap w)) := Obj cls {["__instance_key__" := VStr ik]}]> (heap w))
        (session_state w).

(** The text of a [str]. *)
Definition as_str (v : value) : option string :=
  match v with
  | VStr s => Some s
  | _ => None
  end.

(** The names [MetaSessionState.__new__] draws from a class body. *)
Definition annotated (class_dict : gmap string cattr) : list string :=
  match annotation_names (default (CAnnotations []) (class_dict !! "__annotations__")) with
  | Ok names => omap as_str names
  | Raise _ => []
  end.

Definition is_session_var (a : option cattr) : bool :=
  match a with
  | Some (CValue (VSessionVar _)) => true
  | _ => false
  end.

(** ** A small application, for concrete runs *)

(** Streamlit 1.42 reserves the keys that start with its element-id
    prefix. *)
Definition streamlit_valid_user_key (key : string) : bool :=
  negb (String.prefix "$$ID" key).

(** A host whose classes have no initializer of their own. *)
Definition plain_host : Host := {|
  valid_user_key := streamlit_valid_user_key;
  py_repr := λ _, "<object>";
  interp_attr := λ _ _, None;
  user__init__ := λ _ _ _ _, py_ret tt |}.

(** [def __init__(self, start=None): if start is not None: self.count = start] *)
Definition Counter__init__ (cls : class) (self : loc) (args : list value)
    (kwargs : gmap string value) : py unit :=
  match args with
  | start :: _ => @py_setattr plain_host (VRef self) "count" start
  | [] => py_ret tt
  end.

Definition demo_host : Host := {|
  valid_user_key := streamlit_valid_user_key;
  py_repr := λ _, "<object>";
  interp_attr := λ _ _, None;
  user__init__ := Counter__init__ |}.

(** [class Counter(metaclass=MetaSessionState): count: int; limit = 10] *)
Definition Counter_body : gmap string cattr :=
  {[ "__module__" := CValue (VStr "app");
     "__annotations__" := CAnnotations ["count"];
     "limit" := CValue (VInt 10) ]}.

Definition Counter : class :=
  match MetaSessionState__new__ "Counter" [] Counter_body with
  | Ok cls => cls
  | Raise _ => Class "Counter" [] Counter_body
  end.

(** [class Tally(Counter): step = 1] *)
Definition Tally_body : gmap string cattr :=
  {[ "__module__" := CValue (VStr "app"); "step" := CValue (VInt 1) ]}.

Definition empty_world : world := World ∅ ∅.

Definition with_key (k : string) : gmap string value :=
  {[ "instance_key" := VStr k ]}.

(** The world after [Counter(1, instance_key="a")]. *)
Definition world_a : world :=
  (@MetaSessionState__call__ demo_host Counter [VInt 1] (with_key "a") empty_world).2.

(** The world after [Counter(instance_key="b")] on top of [world_a]. *)
Definition world_ab : world :=
  (@MetaSessionState__call__ demo_host Counter [] (with_key "b") world_a).2.

(** The world after [a.count = a] on top of [world_a]: the field now holds
    the instance itself. *)
Definition world_self : world :=
  (@py_setattr demo_host (VRef 1%positive) "count" (VRef 1%positive) world_a).2.

(** What reading [a.count] returns in [world_self]. *)
Definition self_wrapper : value :=
  VWrapper (VRef 1%positive) "app_Counter_a.count" "count" 1%positive.

(** A host whose initializers always raise. *)
Definition failing_host : Host := {|
  valid_user_key := streamlit_valid_user_key;
  py_repr := λ _, "<object>";
  interp_attr := λ _ _, None;
  user__init__ := λ _ _ _ _, py_raise TypeError |}.

(** A world with one [Counter] that application code stamped by hand with
    a key in streamlit's reserved range. *)
Definition world_reserved : world :=
  World {[ 1%positive := Obj Counter {[ "__instance_key__" := VStr "$$ID-7" ]} ]} ∅.

(** A world with one [Counter] that carries no stamp. *)
Definition world_unstamped : world :=
  World {[ 1%positive := Obj Counter ∅ ]} ∅.

(** [class Hidden(metaclass=MetaSessionState): count: int], defined in a
    module whose name falls in streamlit's reserved range. *)
Definition Hidden_body : gmap string cattr :=
  {[ "__module__" := CValue (VStr "$$ID");
     "__annotations__" := CAnnotations ["count"] ]}.

Definition Hidden : class :=
  match MetaSessionState__new__ "Hidden" [] Hidden_body with
  | Ok cls => cls
  | Raise _ => Class "Hidden" [] Hidden_body
  end.

(** [class Keyed(metaclass=MetaSessionState): __instance_key__: str] *)
Definition Keyed_body : gmap string cattr :=
  {[ "__module__" := CValue (VStr "app");
     "__annotations__" := CAnnotations ["__instance_key__"] ]}.

(** [class Preset(metaclass=MetaSessionState): count: int = 3] *)
Definition Preset_body : gmap string cattr :=
  {[ "__module__" := CValue (VStr "app");
     "__annotations__" := CAnnotations ["count"];
     "count" := CValue (VInt 3) ]}.

(** A float that is not a number. *)
Definition nan : value := VFloat 7%positive FNaN.

(** [class Base: x = 0], [class Left(Base)],
    [class Right(Base, metaclass=MetaSessionState): x: int] and
    [class Bottom(Left, Right)]. *)
Definition Base : class := Class "Base" [] {[ "x" := CValue (VInt 0) ]}.
Definition Left : class := Class "Left" [Base] ∅.
Definition Right : class :=
  match MetaSessionState__new__ "Right" [Base]
          {[ "__annotations__" := CAnnotations ["x"] ]} with
  | Ok cls => cls
  | Raise _ => Class "Right" [Base] ∅
  end.
Definition Bottom : class := Class "Bottom" [Left; Right] ∅.

(** The world after [Counter(instance_key="1")]. *)
Definition world_one : world :=
  (@MetaSessionState__call__ demo_host Counter [] (with_key "1") empty_world).2.

(** * Properties *)

Ltac py_unfold :=
  unfold require_valid_user_key, state_contains, state_getitem,
    state_setitem, instance__dict__setitem, get_heap in *;
  unfold mbind, mret, py_mbind, py_mret, py_bind, py_ret, py_raise, py_lift in *.

Section Descriptor.
Context `{Host}.

(** [_make_key] on a stamped instance returns the field key and touches
    nothing. *)
Lemma make_key_stamped name instance w ik :
  instance_key_of w instance = Some ik →
  SessionVar_make_key name instance w = (Ok (field_key ik name), w).
Proof.
  unfold instance_key_of, SessionVar_make_key, object__getattribute__.
  py_unfold. intros Hik.
  destruct (heap w !! instance) as [o|]; [|done].
  destruct (type_lookup (obj_class o) "__instance_key__") as [[v|ns]|];
    [destruct v| |]; try done; by rewrite Hik.
Qed.

(** Attribute lookup changes the world only through the descriptor. *)
Lemma getattribute_frame (P : world → world → Prop) descr_get instance item w :
  P w w →
  (∀ name i, P w (descr_get name i w).2) →
  P w (object__getattribute__ descr_get instance item w).2.
Proof.
  intros Hrefl Hdescr. unfold object__getattribute__. py_unfold.
  destruct (heap w !! instance) as [o|]; [|done].
  destruct (type_lookup (obj_class o) item) as [[v|ns]|]; [destruct v| |];
    try apply Hdescr;
    destruct (obj__dict__ o !! item); try done;
    destruct (interp_attr (VRef instance) item); done.
Qed.

(** [_make_key] never changes the world, whatever it returns. *)
Lemma make_key_pure name instance w :
  (SessionVar_make_key name instance w).2 = w.
Proof.
  unfold SessionVar_make_key.
  pose proof (getattribute_frame (λ w1 w2, w2 = w1)
                (λ _ _, py_raise RecursionError) instance
                "__instance_key__" w eq_refl (λ _ _, eq_refl)) as Hp.
  py_unfold.
  destruct (object__getattribute__ _ instance "__instance_key__" w)
    as [[a|e] w']; simpl in *; by subst.
Qed.

(** [__get__] on an instance, step by step. *)
Lemma get_unfold name instance w :
  SessionVar__get__ name (Some instance) w =
  match SessionVar_make_key name instance w with
  | (Ok key, _) =>
      if valid_user_key key then
        let wrapped :=
          VWrapper (default VNone (session_state w !! key)) key name instance in
        match heap w !! instance with
        | Some o =>
            (Ok wrapped,
             World (<[instance := Obj (obj_class o) (<[name := wrapped]> (obj__dict__ o))]> (heap w))
                   (session_state w))
        | None => (Raise Unsupported, w)
        end
      else (Raise StreamlitAPIException, w)
  | (Raise e, _) => (Raise e, w)
  end.
Proof.
  unfold SessionVar__get__. pose proof (make_key_pure name instance w) as Hp.
  py_unfold.
  destruct (SessionVar_make_key name instance w) as [[key|e] w']; simpl in Hp;
    subst w'; [|done].
  destruct (valid_user_key key); [|done]. simpl.
  case_bool_decide as Hin.
  - destruct Hin as [v Hv]. rewrite Hv. simpl.
    by destruct (heap w !! instance).
  - apply eq_None_not_Some in Hin. rewrite Hin. simpl.
    by destruct (heap w !! instance).
Qed.

(** [__set__], step by step. *)
Lemma set_unfold name instance v w :
  SessionVar__set__ name instance v w =
  match SessionVar_make_key name instance w with
  | (Ok key, _) =>
      if valid_user_key key then
        match heap w !! instance with
        | Some o =>
            (Ok tt,
             World (<[instance := Obj (obj_class o)
                        (<[name := VWrapper v key name instance]> (obj__dict__ o))]> (heap w))
                   (<[key := v]> (session_state w)))
        | None => (Raise Unsupported, w)
        end
      else (Raise StreamlitAPIException, w)
  | (Raise e, _) => (Raise e, w)
  end.
Proof.
  unfold SessionVar__set__. pose proof (make_key_pure name instance w) as Hp.
  py_unfold.
  destruct (SessionVar_make_key name instance w) as [[key|e] w']; simpl in Hp;
    subst w'; [|done].
  destruct (valid_user_key key); [|done].
  by destruct (heap w !! instance).
Qed.

(** A read leaves the session state as it was. *)
Lemma get_keeps_state name instance w :
  session_state (SessionVar__get__ name instance w).2 = session_state w.
Proof.
  destruct instance as [instance|]; [|done]. rewrite get_unfold.
  destruct (SessionVar_make_key name instance w) as [[key|e] w']; [|done].
  destruct (valid_user_key key); [|done].
  by destruct (heap w !! instance).
Qed.

(** No attribute read, on any value, changes the session state. *)
Lemma getattr_keeps_state v item w :
  session_state (py_getattr v item w).2 = session_state w.
Proof.
  revert w. induction v as [| | | | | | instance | |v IH key d i]; intros w; simpl;
    try (by destruct (interp_attr _ item)).
  - apply (getattribute_frame (λ w1 w2, session_state w2 = session_state w1));
      [done|]. intros name i. exact (get_keeps_state name (Some i) w).
  - py_unfold. case_bool_decide; [done|].
    destruct (Wrapper_slot v key d i item); [done|].
    destruct (interp_attr _ item); [done|].
    unfold Wrapper__getattr__. destruct (name_in item Wrapper_slots); [|apply IH].
    by destruct (Wrapper_slot v key d i item).
Qed.
End Descriptor.

(** ** Equality of values *)

(** Induction on values that reaches into tuples. *)
Lemma value_rect_nested (P : value → Prop) :
  P VNone →
  (∀ b, P (VBool b)) →
  (∀ z, P (VInt z)) →
  (∀ i f, P (VFloat i f)) →
  (∀ s, P (VStr s)) →
  (∀ items, Forall P items → P (VTuple items)) →
  (∀ l, P (VRef l)) →
  (∀ name, P (VSessionVar name)) →
  (∀ v key d i, P v → P (VWrapper v key d i)) →
  ∀ v, P v.
Proof.
  intros HNone HBool HInt HFloat HStr HTuple HRef HVar HWrap.
  fix IH 1. intros [ |b|z|i f|s|items|l|name|v key d i];
    [done|done|done|done|done| |done|done|by apply HWrap].
  apply HTuple. induction items as [|x xs IHxs]; constructor; auto.
Qed.

Lemma unwrap_idemp v : unwrap (unwrap v) = unwrap v.
Proof. induction v; simpl; auto. Qed.

(** Only what the right operand wraps takes part in a comparison. *)
Lemma py_eq_unwrap_r a b : py_eq a b = py_eq a (unwrap b).
Proof.
  revert b. induction a; intros b'; simpl; rewrite ?unwrap_idemp; auto.
Qed.

Lemma float_eqb_refl f : f ≠ FNaN → float_eqb f f = true.
Proof.
  destruct f as [ |s|m e]; intros Hf; simpl; [done| |].
  - by apply bool_decide_eq_true_2.
  - apply Z.eqb_refl.
Qed.

(** [v == v] holds for every value of the model that holds no NaN. *)
Lemma py_eq_refl v : nan_free v = true → py_eq v v = true.
Proof.
  induction v as [ |b|z|i f|s|items IH|l|name|v key d i IH]
    using value_rect_nested; simpl; intros Hfree;
    try by rewrite bool_decide_eq_true_2.
  - done.
  - apply float_eqb_refl. by destruct f.
  - induction IH as [|x xs Hx _ IHxs]; [done|]. simpl in Hfree.
    apply andb_true_iff in Hfree as [Hfx Hfxs].
    by rewrite (Hx Hfx), orb_true_r, (IHxs Hfxs).
  - rewrite py_eq_unwrap_r. simpl. rewrite <- py_eq_unwrap_r. by apply IH.
Qed.

(** ** The slots of a wrapper *)

Lemma Wrapper_slot_None v key d i item :
  Wrapper_slot v key d i item = None → name_in item Wrapper_slots = false.
Proof.
  unfold Wrapper_slot, name_in, Wrapper_slots. intros Hslot.
  apply bool_decide_eq_false_2. rewrite !elem_of_cons, elem_of_nil.
  repeat (case_bool_decide; [done|]).
  intros [?|[?|[?|[?|[]]]]]; done.
Qed.

(** ** Caching a wrapper on the instance *)

Section Cache.
Context `{Host}.

Lemma cached_class_of w instance o name x st l :
  heap w !! instance = Some o →
  class_of (cached w instance o name x st) l = class_of w l.
Proof.
  intros Ho. unfold class_of, cached. simpl.
  destruct (decide (instance = l)) as [->|Hne].
  - by rewrite lookup_insert_eq, Ho.
  - by rewrite lookup_insert_ne.
Qed.

Lemma cached_session_field w instance o name x st l f :
  heap w !! instance = Some o →
  session_field (cached w instance o name x st) l f = session_field w l f.
Proof. intros Ho. unfold session_field. by rewrite cached_class_of. Qed.

Lemma cached_instance_key_of w instance o name x st l :
  heap w !! instance = Some o →
  name ≠ "__instance_key__" →
  instance_key_of (cached w instance o name x st) l = instance_key_of w l.
Proof.
  intros Ho Hne. unfold instance_key_of, cached. simpl.
  destruct (decide (instance = l)) as [->|Hl].
  - rewrite lookup_insert_eq, Ho. simpl. by rewrite lookup_insert_ne.
  - by rewrite lookup_insert_ne.
Qed.

(** A store-backed field of a stamped instance is not the stamp. *)
Lemma session_field_not_stamp w instance f ik :
  session_field w instance f = true →
  instance_key_of w instance = Some ik →
  f ≠ "__instance_key__".
Proof.
  unfold session_field, instance_key_of, class_of. intros Hf Hik ->.
  destruct (heap w !! instance) as [o|]; [|done]. simpl in Hf.
  destruct (type_lookup (obj_class o) "__instance_key__") as [[[]|]|]; done.
Qed.

(** Reading a store-backed field is the descriptor's [__get__]. *)
Lemma getattr_session_field w instance f :
  session_field w instance f = true →
  py_getattr (VRef instance) f w = SessionVar__get__ f (Some instance) w.
Proof.
  unfold session_field, class_of. intros Hf. simpl.
  unfold object__getattribute__. py_unfold.
  destruct (heap w !! instance) as [o|]; [|done]. simpl in Hf.
  destruct (type_lookup (obj_class o) f) as [[[]|]|]; try done.
  by apply bool_decide_eq_true_1 in Hf as ->.
Qed.

(** Assigning a store-backed field is the descriptor's [__set__]. *)
Lemma setattr_session_field w instance f v :
  session_field w instance f = true →
  py_setattr (VRef instance) f v w = SessionVar__set__ f instance v w.
Proof.
  unfold session_field, class_of. intros Hf. simpl.
  unfold object__setattr__. py_unfold.
  destruct (heap w !! instance) as [o|]; [|done]. simpl in Hf.
  destruct (type_lookup (obj_class o) f) as [[[]|]|]; try done.
  by apply bool_decide_eq_true_1 in Hf as ->.
Qed.

Lemma instance_key_of_live w instance ik :
  instance_key_of w instance = Some ik → ∃ o, heap w !! instance = Some o.
Proof.
  unfold instance_key_of. destruct (heap w !! instance); [eauto|done].
Qed.

(** [__set__] on a stamped instance with a valid field key. *)
Lemma set_stamped w instance name ik v :
  instance_key_of w instance = Some ik →
  valid_user_key (field_key ik name) = true →
  ∃ o, heap w !! instance = Some o ∧
    SessionVar__set__ name instance v w =
    (Ok tt, cached w instance o name
              (VWrapper v (field_key ik name) name instance)
              (<[field_key ik name := v]> (session_state w))).
Proof.
  intros Hik Hvalid. destruct (instance_key_of_live _ _ _ Hik) as [o Ho].
  exists o. split; [done|].
  by rewrite set_unfold, (make_key_stamped _ _ _ _ Hik), Hvalid, Ho.
Qed.

(** [__get__] on a stamped instance with a valid field key. *)
Lemma get_stamped w instance name ik :
  instance_key_of w instance = Some ik →
  valid_user_key (field_key ik name) = true →
  ∃ o, heap w !! instance = Some o ∧
    let wrapped :=
      VWrapper (default VNone (session_state w !! field_key ik name))
               (field_key ik name) name instance in
    SessionVar__get__ name (Some instance) w =
    (Ok wrapped, cached w instance o name wrapped (session_state w)).
Proof.
  intros Hik Hvalid. destruct (instance_key_of_live _ _ _ Hik) as [o Ho].
  exists o. split; [done|].
  by rewrite get_unfold, (make_key_stamped _ _ _ _ Hik), Hvalid, Ho.
Qed.
End Cache.

(** ** Reading and writing store-backed fields *)

Section Fields.
Context `{Host}.

(** C9. Reading a field through the descriptor never writes to the
    session state: after [SessionVar.__get__], and after the attribute
    read [instance.name] that triggers it, the session state is exactly what
    it was, whether the read returned or raised and whether or not the
    field key was present (the [None] stand-in is not stored). *)
Theorem read_leaves_session_state name (instance : option loc) (l : loc) w :
  session_state (SessionVar__get__ name instance w).2 = session_state w ∧
  session_state (py_getattr (VRef l) name w).2 = session_state w.
Proof. split; [apply get_keeps_state | apply getattr_keeps_state]. Qed.

(** C6. On a stamped instance whose field key is valid and absent from
    the session state, reading the store-backed field [f] returns, without
    raising, a wrapper around [None]. *)
Theorem read_unwritten_field w instance f ik :
  session_field w instance f = true →
  instance_key_of w instance = Some ik →
  valid_user_key (field_key ik f) = true →
  session_state w !! field_key ik f = None →
  ∃ w', py_getattr (VRef instance) f w =
        (Ok (VWrapper VNone (field_key ik f) f instance), w').
Proof.
  intros Hf Hik Hvalid Habsent.
  rewrite (getattr_session_field _ _ _ Hf).
  destruct (get_stamped w instance f ik Hik Hvalid) as (o & _ & ->).
  rewrite Habsent. simpl. eauto.
Qed.

(** C2, as the code has it. On a stamped instance with a valid field key,
    assigning [v] to the store-backed field [f] succeeds and the next read
    of [f] returns a wrapper of [v] whose comparison with any value is that
    of [v]: in particular the wrapper equals [v] exactly when [v == v].
    Indexing, iteration and length on the wrapper are those of [v], and so
    is attribute access for every name that ordinary lookup does not find
    on the wrapper itself. *)
Theorem write_then_read w instance f ik v :
  session_field w instance f = true →
  instance_key_of w instance = Some ik →
  valid_user_key (field_key ik f) = true →
  ∃ w1 w2 wrapped,
    py_setattr (VRef instance) f v w = (Ok tt, w1) ∧
    py_getattr (VRef instance) f w1 = (Ok wrapped, w2) ∧
    wrapped = VWrapper v (field_key ik f) f instance ∧
    py_eq wrapped v = py_eq v v ∧
    (∀ other, py_eq wrapped other = py_eq v other) ∧
    (∀ item, py_getitem wrapped item = py_getitem v item) ∧
    py_iter wrapped = py_iter v ∧
    py_len wrapped = py_len v ∧
    (∀ item w', item ≠ "key" → Wrapper_slot v (field_key ik f) f instance item = None →
                interp_attr wrapped item = None →
                py_getattr wrapped item w' = py_getattr v item w').
Proof.
  intros Hf Hik Hvalid.
  pose proof (session_field_not_stamp _ _ _ _ Hf Hik) as Hne.
  destruct (set_stamped w instance f ik v Hik Hvalid) as (o & Ho & Hset).
  set (w1 := cached w instance o f (VWrapper v (field_key ik f) f instance)
               (<[field_key ik f := v]> (session_state w))) in *.
  assert (Hik1 : instance_key_of w1 instance = Some ik)
    by (unfold w1; by rewrite cached_instance_key_of).
  assert (Hf1 : session_field w1 instance f = true)
    by (unfold w1; by rewrite cached_session_field).
  destruct (get_stamped w1 instance f ik Hik1 Hvalid) as (o1 & _ & Hget).
  simpl in Hget. rewrite lookup_insert_eq in Hget. simpl in Hget.
  eexists w1, _, _. split; [by rewrite setattr_session_field|].
  split; [by rewrite getattr_session_field|].
  split; [done|]. split; [done|].
  repeat split; try done.
  intros item w' Hkey Hslot Hinterp. simpl.
  rewrite bool_decide_eq_false_2 by done. rewrite Hslot, Hinterp.
  unfold Wrapper__getattr__. by rewrite (Wrapper_slot_None _ _ _ _ _ Hslot).
Qed.
End Fields.

(** ** Calling a class *)

Section Call.
Context `{Host}.


(** A call whose instance key is already in the session state returns
    what is stored there and changes nothing. *)
Lemma call_hit cls args kwargs id m r w :
  kwargs !! "instance_key" = Some id →
  cls__dict__ cls !! "__module__" = Some (CValue m) →
  valid_user_key (make_instance_key m (cls__name__ cls) id) = true →
  session_state w !! make_instance_key m (cls__name__ cls) id = Some r →
  MetaSessionState__call__ cls args kwargs w = (Ok r, w).
Proof.
  intros Hk Hm Hvalid Hr. unfold MetaSessionState__call__, class__module__.
  rewrite Hk, Hm. py_unfold. rewrite Hvalid. simpl.
  rewrite bool_decide_eq_true_2 by eauto. by rewrite Hr.
Qed.

(** A call whose instance key is not yet in the session state allocates,
    stamps, runs the initializer and registers the instance. *)
Lemma call_miss cls args kwargs id m w :
  kwargs !! "instance_key" = Some id →
  cls__dict__ cls !! "__module__" = Some (CValue m) →
  valid_user_key (make_instance_key m (cls__name__ cls) id) = true →
  session_state w !! make_instance_key m (cls__name__ cls) id = None →
  is_session_var (type_lookup cls "__instance_key__") = false →
  MetaSessionState__call__ cls args kwargs w =
  match user__init__ cls (fresh (dom (heap w))) args (delete "instance_key" kwargs)
          (stamped_world w cls (make_instance_key m (cls__name__ cls) id)) with
  | (Ok _, w') =>
      (Ok (VRef (fresh (dom (heap w)))),
       World (heap w')
             (<[make_instance_key m (cls__name__ cls) id := VRef (fresh (dom (heap w)))]>
                (session_state w')))
  | (Raise e, w') => (Raise e, w')
  end.
Proof.
  intros Hk Hm Hvalid Hr Hstamp.
  unfold MetaSessionState__call__, class__module__.
  rewrite Hk, Hm. py_unfold. rewrite Hvalid. simpl.
  rewrite bool_decide_eq_false_2 by (rewrite Hr; by intros [? ?]).
  unfold object__new__, object__setattr__. py_unfold. simpl.
  rewrite lookup_insert_eq. simpl.
  replace (match type_lookup cls "__instance_key__" with
           | Some (CValue (VSessionVar descriptor)) => _
           | _ => _
           end) with
    (instance__dict__setitem (fresh (dom (heap w))) "__instance_key__"
       (VStr (make_instance_key m (cls__name__ cls) id)))
    by (by destruct (type_lookup cls "__instance_key__") as [[[]|]|]).
  py_unfold. simpl. rewrite lookup_insert_eq. simpl.
  rewrite insert_insert_eq. fold (stamped_world w cls (make_instance_key m (cls__name__ cls) id)).
  destruct (user__init__ _ _ _ _ _) as [[[]|e] w']; [|done].
  simpl. by rewrite lookup_insert_eq.
Qed.
(** On a miss with [__instance_key__] bound to a descriptor on the class,
    stamping the new instance fails and nothing is registered. *)
Lemma call_miss_descriptor cls args kwargs id m w :
  kwargs !! "instance_key" = Some id →
  cls__dict__ cls !! "__module__" = Some (CValue m) →
  valid_user_key (make_instance_key m (cls__name__ cls) id) = true →
  session_state w !! make_instance_key m (cls__name__ cls) id = None →
  is_session_var (type_lookup cls "__instance_key__") = true →
  MetaSessionState__call__ cls args kwargs w =
  (Raise RecursionError,
   World (<[fresh (dom (heap w)) := Obj cls ∅]> (heap w)) (session_state w)).
Proof.
  intros Hk Hm Hvalid Hr Hstamp.
  unfold MetaSessionState__call__, class__module__.
  rewrite Hk, Hm. py_unfold. rewrite Hvalid. simpl.
  rewrite bool_decide_eq_false_2 by (rewrite Hr; by intros [? ?]).
  unfold object__new__, object__setattr__. py_unfold. simpl.
  rewrite lookup_insert_eq. simpl.
  destruct (type_lookup cls "__instance_key__") as [[[]|]|] eqn:Hl; try done.
  rewrite set_unfold. unfold SessionVar_make_key, object__getattribute__.
  py_unfold. simpl. rewrite lookup_insert_eq. simpl. by rewrite Hl.
Qed.

(** What a call that returned tells about the class and the session
    state. *)
Lemma call_returned cls args kwargs id r w w' :
  kwargs !! "instance_key" = Some id →
  MetaSessionState__call__ cls args kwargs w = (Ok r, w') →
  ∃ m, cls__dict__ cls !! "__module__" = Some (CValue m) ∧
       valid_user_key (make_instance_key m (cls__name__ cls) id) = true ∧
       session_state w' !! make_instance_key m (cls__name__ cls) id = Some r.
Proof.
  intros Hk.
  destruct (cls__dict__ cls !! "__module__") as [[m|ns]|] eqn:Hm;
    try (unfold MetaSessionState__call__, class__module__;
         rewrite Hk, Hm; by py_unfold).
  destruct (valid_user_key (make_instance_key m (cls__name__ cls) id)) eqn:Hv.
  2:{ unfold MetaSessionState__call__, class__module__.
      rewrite Hk, Hm. py_unfold. by rewrite Hv. }
  destruct (session_state w !! make_instance_key m (cls__name__ cls) id)
    as [r0|] eqn:Hr.
  - rewrite (call_hit _ _ _ _ _ _ _ Hk Hm Hv Hr). intros [= <- <-]. eauto.
  - destruct (is_session_var (type_lookup cls "__instance_key__")) eqn:Hd.
    + by rewrite (call_miss_descriptor _ _ _ _ _ _ Hk Hm Hv Hr Hd).
    + rewrite (call_miss _ _ _ _ _ _ Hk Hm Hv Hr Hd).
      destruct (user__init__ _ _ _ _ _) as [[[]|e] w1]; [|done].
      intros [= <- <-]. exists m. simpl. by rewrite lookup_insert_eq.
Qed.

(** C4. Calling a class without the keyword argument [instance_key] raises
    [KeyError] and leaves the world, the session state included, exactly as
    it was: no instance is allocated and nothing is stored. *)
Theorem call_without_instance_key cls args kwargs w :
  kwargs !! "instance_key" = None →
  MetaSessionState__call__ cls args kwargs w = (Raise KeyError, w).
Proof. intros Hk. unfold MetaSessionState__call__. by rewrite Hk. Qed.

(** C1. Once a call with [instance_key=k] has returned [r], any further
    call with the same [k] returns that same [r], whatever positional and
    keyword arguments accompany it, and leaves the whole world unchanged: the
    initializer does not run again and no field value moves. *)
Theorem same_key_same_instance cls args1 kwargs1 args2 kwargs2 k r w0 w1 :
  kwargs1 !! "instance_key" = Some k →
  kwargs2 !! "instance_key" = Some k →
  MetaSessionState__call__ cls args1 kwargs1 w0 = (Ok r, w1) →
  MetaSessionState__call__ cls args2 kwargs2 w1 = (Ok r, w1).
Proof.
  intros Hk1 Hk2 Hcall.
  destruct (call_returned _ _ _ _ _ _ _ Hk1 Hcall) as (m & Hm & Hv & Hr).
  by apply (call_hit _ _ _ k m).
Qed.
End Call.

(** ** Keys *)

Lemma string_length_app (s t : string) :
  String.length (s +:+ t) = String.length s + String.length t.
Proof. induction s as [|c s IH]; simpl; [done|]. by rewrite IH. Qed.

(** A common suffix can be cancelled. *)
Lemma string_app_inj_r (t s1 s2 : string) : s1 +:+ t = s2 +:+ t → s1 = s2.
Proof.
  revert s2. induction s1 as [|c s1 IH]; intros [|c' s2] Heq; simpl in Heq.
  - done.
  - apply (f_equal String.length) in Heq. simpl in Heq.
    rewrite !string_length_app in Heq. simpl in Heq. lia.
  - apply (f_equal String.length) in Heq. simpl in Heq.
    rewrite !string_length_app in Heq. simpl in Heq. lia.
  - injection Heq as -> Heq. by rewrite (IH _ Heq).
Qed.

Section Keys.
Context `{Host}.


(** Distinct instance keys give distinct field keys for the same field. *)
Lemma field_key_inj (ik1 ik2 f : string) :
  field_key (VStr ik1) f = field_key (VStr ik2) f → ik1 = ik2.
Proof. unfold field_key. simpl. apply string_app_inj_r. Qed.

(** [__set__] writes the session state at the field key only. *)
Lemma set_state_frame name instance v w ik key :
  instance_key_of w instance = Some ik →
  key ≠ field_key ik name →
  session_state (SessionVar__set__ name instance v w).2 !! key =
  session_state w !! key.
Proof.
  intros Hik Hne. rewrite set_unfold, (make_key_stamped _ _ _ _ Hik).
  destruct (valid_user_key _); [|done].
  destruct (heap w !! instance); [|done]. simpl. by rewrite lookup_insert_ne.
Qed.








End Keys.

(** ** Instances and their keys *)

Section Registry.
Context `{Host}.




End Registry.

(** ** Class creation *)

Lemma omap_as_str_fmap (names : list string) : omap as_str (VStr <$> names) = names.
Proof. induction names as [|n names IH]; [done|]. csimpl. by f_equal. Qed.

(** What the loop of [__new__] leaves in the class. *)
Lemma bind_session_vars_spec names : ∀ cls cls',
  bind_session_vars cls names = Ok cls' →
  cls__name__ cls' = cls__name__ cls ∧
  cls__bases__ cls' = cls__bases__ cls ∧
  ∀ a, cls__dict__ cls' !! a =
       if bool_decide (a ∈ omap as_str names) then Some (CValue (VSessionVar a))
       else cls__dict__ cls !! a.
Proof.
  induction names as [|x names IH]; intros cls cls' Hbind; simpl in Hbind.
  - injection Hbind as <-. by repeat split.
  - destruct x as [ | | | |n| | | | ]; try done.
    destruct (IH _ _ Hbind) as (Hname & Hbases & Hdict).
    split; [done|]. split; [done|]. intros a. rewrite Hdict. csimpl.
    destruct (decide (a = n)) as [->|Hne].
    + rewrite lookup_insert_eq.
      rewrite (bool_decide_eq_true_2 (n ∈ n :: omap as_str names)) by left.
      by case_bool_decide.
    + rewrite lookup_insert_ne by done.
      case_bool_decide as Hin.
      * by rewrite bool_decide_eq_true_2 by by right.
      * rewrite bool_decide_eq_false_2; [done|].
        rewrite elem_of_cons. intros [?|?]; done.
Qed.

(** Names that are all of type [str] are all bound. *)
Lemma bind_session_vars_total (names : list string) cls :
  ∃ cls', bind_session_vars cls (VStr <$> names) = Ok cls'.
Proof.
  revert cls. induction names as [|n names IH]; intros cls; simpl; eauto.
Qed.

(** With a proper annotations dictionary (or none), [__new__] returns. *)
Lemma new_total name bases class_dict names :
  default (CAnnotations []) (class_dict !! "__annotations__") = CAnnotations names →
  ∃ cls, MetaSessionState__new__ name bases class_dict = Ok cls ∧
         annotated class_dict = names.
Proof.
  intros Ha. unfold MetaSessionState__new__, annotated. rewrite Ha. simpl.
  destruct (bind_session_vars_total names (Class name bases class_dict)) as [cls Hc].
  rewrite omap_as_str_fmap. eauto.
Qed.

(** What [__new__] returns. *)
Lemma new_spec name bases class_dict cls :
  MetaSessionState__new__ name bases class_dict = Ok cls →
  cls__name__ cls = name ∧
  cls__bases__ cls = bases ∧
  ∀ a, cls__dict__ cls !! a =
       if bool_decide (a ∈ annotated class_dict)
       then Some (CValue (VSessionVar a)) else class_dict !! a.
Proof.
  unfold MetaSessionState__new__, annotated.
  destruct (annotation_names _) as [names|e]; [|done].
  intros Hbind. by apply bind_session_vars_spec in Hbind.
Qed.

(** The resolution order of a class is the class, then the order of its
    bases. *)
Lemma resolution_order_unfold name bases class_dict :
  resolution_order (Class name bases class_dict) =
  Class name bases class_dict :: bases_order bases.
Proof.
  unfold bases_order, resolution_order. simpl.
  destruct ((fix each (bs : list class) : option (list (list class)) :=
               match bs with
               | [] => Some []
               | b :: bs' =>
                   match mro b, each bs' with
                   | Some l, Some ls => Some (l :: ls)
                   | _, _ => None
                   end
               end) bases) as [orders|]; [|done].
  by destruct (c3_merge _ _).
Qed.

Lemma type_lookup_own cls a x :
  cls__dict__ cls !! a = Some x → type_lookup cls a = Some x.
Proof.
  destruct cls as [n b d]. unfold type_lookup.
  rewrite resolution_order_unfold. simpl. by intros ->.
Qed.

Lemma type_lookup_inherited cls a :
  cls__dict__ cls !! a = None →
  type_lookup cls a =
  namespaces_lookup (cls__dict__ <$> bases_order (cls__bases__ cls)) a.
Proof.
  destruct cls as [n b d]. unfold type_lookup.
  rewrite resolution_order_unfold. simpl. by intros ->.
Qed.

Section Creation.
Context `{Host}.

(** C8. Creating a class from a body whose annotations are [names] returns
    a class in which exactly the names in [names] are bound to a [SessionVar]
    carrying that name, every other entry of the namespace being that of the
    body; and a plain attribute of the body that is not annotated is read from
    the instance dictionary or the class and assigned into the instance
    dictionary, the session state playing no part. *)
Theorem new_binds_annotated_names_only name bases class_dict names :
  default (CAnnotations []) (class_dict !! "__annotations__") = CAnnotations names →
  ∃ cls,
    MetaSessionState__new__ name bases class_dict = Ok cls ∧
    cls__name__ cls = name ∧ cls__bases__ cls = bases ∧
    (∀ f, f ∈ names → cls__dict__ cls !! f = Some (CValue (VSessionVar f))) ∧
    (∀ a, a ∉ names → cls__dict__ cls !! a = class_dict !! a) ∧
    (∀ a v w instance o x,
       a ∉ names →
       class_dict !! a = Some (CValue v) →
       is_session_var (Some (CValue v)) = false →
       heap w !! instance = Some o →
       obj_class o = cls →
       py_getattr (VRef instance) a w = (Ok (default v (obj__dict__ o !! a)), w) ∧
       py_setattr (VRef instance) a x w =
         (Ok tt, cached w instance o a x (session_state w))).
Proof.
  intros Ha. destruct (new_total name bases class_dict names Ha) as (cls & Hnew & Hann).
  destruct (new_spec _ _ _ _ Hnew) as (Hname & Hbases & Hdict).
  rewrite Hann in Hdict.
  exists cls. split; [done|]. split; [done|]. split; [done|].
  split; [|split].
  - intros f Hf. rewrite Hdict. by rewrite bool_decide_eq_true_2.
  - intros a Hna. rewrite Hdict. by rewrite bool_decide_eq_false_2.
  - intros a v w instance o x Hna Hbody Hplain Ho Hcls.
    assert (Hlook : type_lookup (obj_class o) a = Some (CValue v)).
    { rewrite Hcls. apply type_lookup_own. rewrite Hdict.
      by rewrite bool_decide_eq_false_2. }
    simpl. unfold object__getattribute__, object__setattr__. py_unfold.
    rewrite Ho, Hlook. split.
    + destruct v; try done; by destruct (obj__dict__ o !! a).
    + destruct v; try done; by rewrite Ho.
Qed.

(** C10. Whatever the bases are, and whether or not they were created by
    the metaclass, [__new__] rewrites only the names annotated in the body of
    the new class: the namespace it builds does not depend on the bases, and
    for a name [f] that the body does not annotate it holds what the body
    holds, so that an [f] the body does not define resolves, as any inherited
    attribute, to the first binding along the method resolution order of the
    bases. *)
Theorem new_leaves_inherited_fields name bases class_dict names f :
  default (CAnnotations []) (class_dict !! "__annotations__") = CAnnotations names →
  f ∉ names →
  ∃ cls,
    MetaSessionState__new__ name bases class_dict = Ok cls ∧
    cls__dict__ cls !! f = class_dict !! f ∧
    type_lookup cls f =
      from_option Some (namespaces_lookup (cls__dict__ <$> bases_order bases) f)
        (class_dict !! f) ∧
    ∀ bases', ∃ cls',
      MetaSessionState__new__ name bases' class_dict = Ok cls' ∧
      cls__dict__ cls' = cls__dict__ cls.
Proof.
  intros Ha Hnf.
  destruct (new_total name bases class_dict names Ha) as (cls & Hnew & Hann).
  destruct (new_spec _ _ _ _ Hnew) as (Hname & Hbases & Hdict).
  assert (Hf : cls__dict__ cls !! f = class_dict !! f)
    by (by rewrite Hdict, Hann, bool_decide_eq_false_2).
  exists cls. split; [done|]. split; [done|]. split.
  - destruct (class_dict !! f) as [x|] eqn:Hbody; simpl.
    + by apply type_lookup_own.
    + by rewrite (type_lookup_inherited _ _ Hf), Hbases.
  - intros bases'.
    destruct (new_total name bases' class_dict names Ha) as (cls' & Hnew' & _).
    destruct (new_spec _ _ _ _ Hnew') as (_ & _ & Hdict').
    exists cls'. split; [done|]. apply map_eq. intros a.
    by rewrite Hdict, Hdict'.
Qed.
End Creation.

(** ** Assigning through a wrapper *)

Section Wrapper.
Context `{Host}.

(** What [_Wrapper.__setattr__] does. Assigning to one of the four slots
    of a wrapper ([_value], [_key], [_descriptor], [_instance]) raises
    [AttributeError] and changes nothing.  Every other name, [key] included,
    is forwarded to the wrapped value, so assigning to [key] raises
    [AttributeError] when that value takes no attributes ([None], [bool],
    [int], [str], tuples).  After any assignment through the wrapper, reading
    [key] still returns the field key. *)
Theorem wrapper_assignment v key d i name x w :
  py_setattr (VWrapper v key d i) name x w =
    (if name_in name Wrapper_slots then (Raise AttributeError, w)
     else py_setattr v name x w) ∧
  py_setattr (VWrapper v key d i) "_value" x w = (Raise AttributeError, w) ∧
  py_setattr (VWrapper v key d i) "_key" x w = (Raise AttributeError, w) ∧
  py_setattr (VWrapper v key d i) "_descriptor" x w = (Raise AttributeError, w) ∧
  py_setattr (VWrapper v key d i) "_instance" x w = (Raise AttributeError, w) ∧
  py_setattr (VWrapper v key d i) "key" x w = py_setattr v "key" x w ∧
  match v with
  | VNone | VBool _ | VInt _ | VFloat _ _ | VStr _ | VTuple _ =>
      py_setattr (VWrapper v key d i) "key" x w = (Raise AttributeError, w)
  | _ => True
  end ∧
  py_getattr (VWrapper v key d i) "key" (py_setattr (VWrapper v key d i) name x w).2 =
    (Ok (VStr key), (py_setattr (VWrapper v key d i) name x w).2) ∧
  Wrapper_key (VWrapper v key d i) = Ok (VStr key).
Proof.
  split; [simpl; unfold Wrapper__setattr__; by destruct (name_in name Wrapper_slots)|].
  repeat (split; [reflexivity|]).
  split; [by destruct v|]. split; reflexivity.
Qed.
End Wrapper.

(** C3. The docstrings of [_Wrapper] promise a read-only [key], and the
    property has no setter; but assignment never reaches the property,
    because [__setattr__] forwards [key] as any other name.  In [world_self]
    the field [count] of the instance holds the instance itself; reading it
    gives [self_wrapper], and assigning [7] to [key] on that wrapper returns
    normally, having stored [7] under [key] in the dictionary of the
    instance, where the specification has the assignment raise. *)
Lemma wrapper_key_assignment_returns :
  (@py_getattr demo_host (VRef 1%positive) "count" world_self).1 = Ok self_wrapper ∧
  (@py_setattr demo_host self_wrapper "key" (VInt 7) world_self).1 = Ok tt ∧
  (obj__dict__ <$>
     heap (@py_setattr demo_host self_wrapper "key" (VInt 7) world_self).2 !! 1%positive)
    ≫= (.!! "key") = Some (VInt 7).
Proof. vm_compute. repeat split. Qed.

(** * Concrete runs on the sample application *)

(** C1 on [Counter(1, instance_key="a")] followed by
    [Counter(99, instance_key="a")]. *)
Lemma same_key_same_instance_witness :
  with_key "a" !! "instance_key" = Some (VStr "a") ∧
  @MetaSessionState__call__ demo_host Counter [VInt 1] (with_key "a") empty_world =
    (Ok (VRef 1%positive), world_a) ∧
  @MetaSessionState__call__ demo_host Counter [VInt 99] (with_key "a") world_a =
    (Ok (VRef 1%positive), world_a).
Proof.
  assert (Hk : with_key "a" !! "instance_key" = Some (VStr "a")) by reflexivity.
  assert (Hcall : @MetaSessionState__call__ demo_host Counter [VInt 1]
                    (with_key "a") empty_world = (Ok (VRef 1%positive), world_a))
    by (vm_compute; reflexivity).
  split; [exact Hk|]. split; [exact Hcall|].
  exact (@same_key_same_instance demo_host Counter [VInt 1] (with_key "a")
           [VInt 99] (with_key "a") (VStr "a") (VRef 1%positive)
           empty_world world_a Hk Hk Hcall).
Defined.

(** C2 on [a.count = 5] in [world_a]. *)
Lemma write_then_read_witness :
  session_field world_a 1%positive "count" = true ∧
  instance_key_of world_a 1%positive = Some (VStr "app_Counter_a") ∧
  ∃ w1 w2,
    @py_setattr demo_host (VRef 1%positive) "count" (VInt 5) world_a = (Ok tt, w1) ∧
    @py_getattr demo_host (VRef 1%positive) "count" w1 =
      (Ok (VWrapper (VInt 5) "app_Counter_a.count" "count" 1%positive), w2).
Proof.
  assert (Hf : session_field world_a 1%positive "count" = true)
    by (vm_compute; reflexivity).
  assert (Hik : instance_key_of world_a 1%positive = Some (VStr "app_Counter_a"))
    by (vm_compute; reflexivity).
  split; [exact Hf|]. split; [exact Hik|].
  destruct (@write_then_read demo_host world_a 1%positive "count"
              (VStr "app_Counter_a") (VInt 5) Hf Hik eq_refl)
    as (w1 & w2 & wrapped & Hset & Hget & -> & _).
  exists w1, w2. split; [exact Hset | exact Hget].
Defined.

(** C4 on [Counter(1)]. *)
Lemma call_without_instance_key_witness :
  (∅ : gmap string value) !! "instance_key" = None ∧
  @MetaSessionState__call__ demo_host Counter [VInt 1] ∅ world_a =
    (Raise KeyError, world_a).
Proof.
  split; [reflexivity|].
  exact (@call_without_instance_key demo_host Counter [VInt 1] ∅ world_a eq_refl).
Defined.


(** C6 on [b.count] right after [Counter(instance_key="b")]. *)
Lemma read_unwritten_field_witness :
  session_field world_ab 2%positive "count" = true ∧
  instance_key_of world_ab 2%positive = Some (VStr "app_Counter_b") ∧
  session_state world_ab !! "app_Counter_b.count" = None ∧
  ∃ w', @py_getattr demo_host (VRef 2%positive) "count" world_ab =
        (Ok (VWrapper VNone "app_Counter_b.count" "count" 2%positive), w').
Proof.
  assert (Hf : session_field world_ab 2%positive "count" = true)
    by (vm_compute; reflexivity).
  assert (Hik : instance_key_of world_ab 2%positive = Some (VStr "app_Counter_b"))
    by (vm_compute; reflexivity).
  assert (Habs : session_state world_ab !! "app_Counter_b.count" = None)
    by (vm_compute; reflexivity).
  split; [exact Hf|]. split; [exact Hik|]. split; [exact Habs|].
  exact (@read_unwritten_field demo_host world_ab 2%positive "count"
           (VStr "app_Counter_b") Hf Hik eq_refl Habs).
Defined.



(** C2, as the specification words it, fails: after [a.count = nan] the
    read of [a.count] returns a wrapper of that very float and
    [wrapper == nan] is false, as [nan == nan] is. *)
Lemma nan_field_not_equal :
  (@py_getattr demo_host (VRef 1%positive) "count"
     (@py_setattr demo_host (VRef 1%positive) "count" nan world_a).2).1 =
    Ok (VWrapper nan "app_Counter_a.count" "count" 1%positive) ∧
  py_eq (VWrapper nan "app_Counter_a.count" "count" 1%positive) nan = false ∧
  py_eq nan nan = false.
Proof. vm_compute. repeat split. Qed.

(** The resolution order on a diamond: [Bottom.x] is the descriptor that
    [Right] binds, found before the plain [0] of [Base]. *)
Example diamond_resolution :
  (cls__name__ <$> resolution_order Bottom) = ["Bottom"; "Left"; "Right"; "Base"] ∧
  type_lookup Bottom "x" = Some (CValue (VSessionVar "x")).
Proof. vm_compute. split; reflexivity. Qed.

(** C8 on the body of [Counter]. *)
Lemma new_binds_annotated_names_only_witness :
  default (CAnnotations []) (Counter_body !! "__annotations__") = CAnnotations ["count"] ∧
  ∃ cls,
    MetaSessionState__new__ "Counter" [] Counter_body = Ok cls ∧
    cls__dict__ cls !! "count" = Some (CValue (VSessionVar "count")) ∧
    cls__dict__ cls !! "limit" = Some (CValue (VInt 10)).
Proof.
  split; [reflexivity|].
  destruct (@new_binds_annotated_names_only plain_host "Counter" [] Counter_body
              ["count"] eq_refl)
    as (cls & Hnew & _ & _ & Hann & Hplain & _).
  exists cls. split; [exact Hnew|]. split.
  - apply Hann. left.
  - rewrite Hplain; [reflexivity|].
    intros Hin. apply list_elem_of_singleton in Hin. discriminate.
Defined.

(** C10 on [class Tally(Counter)], whose body says nothing of [count]. *)
Lemma new_leaves_inherited_fields_witness :
  default (CAnnotations []) (Tally_body !! "__annotations__") = CAnnotations [] ∧
  ∃ cls,
    MetaSessionState__new__ "Tally" [Counter] Tally_body = Ok cls ∧
    cls__dict__ cls !! "count" = None ∧
    type_lookup cls "count" = Some (CValue (VSessionVar "count")).
Proof.
  split; [reflexivity|].
  destruct (new_leaves_inherited_fields "Tally" [Counter] Tally_body [] "count"
              eq_refl (not_elem_of_nil _))
    as (cls & Hnew & Hown & Hlook & _).
  exists cls. split; [exact Hnew|]. split; [exact Hown | exact Hlook].
Defined.

(** * Further properties of the descriptor and the metaclass *)

Lemma string_app_assoc (a b c : string) : (a +:+ b) +:+ c = a +:+ (b +:+ c).
Proof.
  induction a as [|x a IH]; [done|].
  assert (Hc : ∀ y z, String x y +:+ z = String x (y +:+ z)) by done.
  by rewrite !Hc, IH.
Qed.

Lemma string_app_neq_l (a b : string) : b ≠ "" → a +:+ b ≠ a.
Proof.
  intros Hb Heq. apply (f_equal String.length) in Heq.
  rewrite string_length_app in Heq. destruct b; [done|]. simpl in Heq. lia.
Qed.

Section Errors.
Context `{Host}.

(** X1. Reached through the class rather than an instance, an annotated
    field of a class made by the metaclass yields the [SessionVar] itself:
    no key is built or validated and the world is left as it is. *)
Theorem class_access_returns_descriptor name bases class_dict names f w :
  default (CAnnotations []) (class_dict !! "__annotations__") = CAnnotations names →
  f ∈ names →
  ∃ cls,
    MetaSessionState__new__ name bases class_dict = Ok cls ∧
    type__getattribute__ cls f w = (Ok (VSessionVar f), w).
Proof.
  intros Ha Hf.
  destruct (new_total name bases class_dict names Ha) as (cls & Hnew & Hann).
  destruct (new_spec _ _ _ _ Hnew) as (_ & _ & Hdict).
  exists cls. split; [done|]. unfold type__getattribute__.
  rewrite (type_lookup_own cls f (CValue (VSessionVar f))); [done|].
  by rewrite Hdict, Hann, bool_decide_eq_true_2.
Qed.

(** X2. When the field key of a stamped instance fails streamlit's key
    rule, both [__get__] and [__set__] raise [StreamlitAPIException] before
    touching anything: no wrapper is cached and nothing is stored. *)
Theorem invalid_field_key_rejected w instance name ik v :
  instance_key_of w instance = Some ik →
  valid_user_key (field_key ik name) = false →
  SessionVar__get__ name (Some instance) w = (Raise StreamlitAPIException, w) ∧
  SessionVar__set__ name instance v w = (Raise StreamlitAPIException, w).
Proof.
  intros Hik Hv. rewrite get_unfold, set_unfold.
  by rewrite (make_key_stamped _ _ _ _ Hik), Hv.
Qed.

(** X3. A call whose derived instance key fails the key rule raises
    [StreamlitAPIException] and leaves the world as it is, even when an entry
    is already stored under that key. *)
Theorem invalid_instance_key_rejected cls args kwargs id m w :
  kwargs !! "instance_key" = Some id →
  cls__dict__ cls !! "__module__" = Some (CValue m) →
  valid_user_key (make_instance_key m (cls__name__ cls) id) = false →
  MetaSessionState__call__ cls args kwargs w = (Raise StreamlitAPIException, w).
Proof.
  intros Hk Hm Hv. unfold MetaSessionState__call__, class__module__.
  rewrite Hk, Hm. py_unfold. by rewrite Hv.
Qed.

(** X4. When the initializer of a new instance raises, the call raises the
    same exception and the world is the one the initializer left: the
    instance is not registered under its instance key, so the same call,
    repeated in a world that still lacks the key, builds a new instance and
    runs the initializer again. *)
Theorem failed_initializer_registers_nothing cls args kwargs id m ik e w w' :
  kwargs !! "instance_key" = Some id →
  cls__dict__ cls !! "__module__" = Some (CValue m) →
  ik = make_instance_key m (cls__name__ cls) id →
  valid_user_key ik = true →
  session_state w !! ik = None →
  is_session_var (type_lookup cls "__instance_key__") = false →
  user__init__ cls (fresh (dom (heap w))) args (delete "instance_key" kwargs)
    (stamped_world w cls ik) = (Raise e, w') →
  session_state w' !! ik = None →
  MetaSessionState__call__ cls args kwargs w = (Raise e, w') ∧
  MetaSessionState__call__ cls args kwargs w' =
    match user__init__ cls (fresh (dom (heap w'))) args (delete "instance_key" kwargs)
            (stamped_world w' cls ik) with
    | (Ok _, w'') =>
        (Ok (VRef (fresh (dom (heap w')))),
         World (heap w'') (<[ik := VRef (fresh (dom (heap w')))]> (session_state w'')))
    | (Raise e', w'') => (Raise e', w'')
    end.
Proof.
  intros Hk Hm -> Hv Hmiss Hd Hinit Hmiss'. split.
  - by rewrite (call_miss _ _ _ _ _ _ Hk Hm Hv Hmiss Hd), Hinit.
  - by rewrite (call_miss _ _ _ _ _ _ Hk Hm Hv Hmiss' Hd).
Qed.

(** X5. Without a stamp (no [__instance_key__] on the instance, on its
    class, or from the interpreter), reading or assigning through the
    descriptor raises [AttributeError] and changes nothing. *)
Theorem unstamped_instance_raises w instance o name v :
  heap w !! instance = Some o →
  obj__dict__ o !! "__instance_key__" = None →
  type_lookup (obj_class o) "__instance_key__" = None →
  interp_attr (VRef instance) "__instance_key__" = None →
  SessionVar__get__ name (Some instance) w = (Raise AttributeError, w) ∧
  SessionVar__set__ name instance v w = (Raise AttributeError, w).
Proof.
  intros Ho Hd Hc Hi.
  assert (Hkey : SessionVar_make_key name instance w = (Raise AttributeError, w)).
  { unfold SessionVar_make_key, object__getattribute__. py_unfold.
    by rewrite Ho, Hc, Hd, Hi. }
  by rewrite get_unfold, set_unfold, Hkey.
Qed.

(** X6. A class whose body annotates [__instance_key__] cannot be
    instantiated: [__new__] binds that name to a descriptor, so stamping a
    new instance goes through [__set__], whose [_make_key] reads the stamp
    through the same descriptor; every call that gets as far as building an
    instance raises [RecursionError], and nothing enters the session state. *)
Theorem annotated_stamp_unconstructible name bases class_dict names args kwargs id m w :
  default (CAnnotations []) (class_dict !! "__annotations__") = CAnnotations names →
  "__instance_key__" ∈ names →
  "__module__" ∉ names →
  class_dict !! "__module__" = Some (CValue m) →
  kwargs !! "instance_key" = Some id →
  valid_user_key (make_instance_key m name id) = true →
  session_state w !! make_instance_key m name id = None →
  ∃ cls,
    MetaSessionState__new__ name bases class_dict = Ok cls ∧
    (MetaSessionState__call__ cls args kwargs w).1 = Raise RecursionError ∧
    session_state (MetaSessionState__call__ cls args kwargs w).2 = session_state w.
Proof.
  intros Ha Hin Hmod Hm Hk Hv Hmiss.
  destruct (new_total name bases class_dict names Ha) as (cls & Hnew & Hann).
  destruct (new_spec _ _ _ _ Hnew) as (Hname & _ & Hdict).
  assert (Hm' : cls__dict__ cls !! "__module__" = Some (CValue m))
    by (by rewrite Hdict, Hann, bool_decide_eq_false_2).
  assert (Hd : is_session_var (type_lookup cls "__instance_key__") = true).
  { rewrite (type_lookup_own cls _ (CValue (VSessionVar "__instance_key__")));
      [done|]. by rewrite Hdict, Hann, bool_decide_eq_true_2. }
  exists cls. split; [done|]. rewrite <- Hname in Hv, Hmiss.
  by rewrite (call_miss_descriptor _ _ _ _ _ _ Hk Hm' Hv Hmiss Hd).
Qed.
End Errors.

Section Composition.
Context `{Host}.

(** Distinct field names of one instance have distinct field keys. *)
Lemma field_key_name_inj ik (f g : string) :
  field_key ik f = field_key ik g → f = g.
Proof. unfold field_key. intros Heq. by repeat apply String.app_inj in Heq. Qed.

(** The field key of an instance is never its own instance key. *)
Lemma field_key_not_instance_key (ik f : string) : field_key (VStr ik) f ≠ ik.
Proof. unfold field_key. simpl. by apply string_app_neq_l. Qed.

(** X7. The session state decides what a read returns: whatever wrapper
    the instance dictionary still caches, once [x] is stored under the field
    key the next read of the field wraps [x]. *)
Theorem read_follows_store w instance f ik x :
  session_field w instance f = true →
  instance_key_of w instance = Some ik →
  valid_user_key (field_key ik f) = true →
  ∃ w',
    py_getattr (VRef instance) f (state_setitem (field_key ik f) x w).2 =
    (Ok (VWrapper x (field_key ik f) f instance), w').
Proof.
  intros Hf Hik Hv.
  set (w0 := World (heap w) (<[field_key ik f := x]> (session_state w))).
  change (state_setitem (field_key ik f) x w).2 with w0.
  assert (Hf0 : session_field w0 instance f = true) by done.
  assert (Hik0 : instance_key_of w0 instance = Some ik) by done.
  rewrite (getattr_session_field _ _ _ Hf0).
  destruct (get_stamped w0 instance f ik Hik0 Hv) as (o & _ & ->).
  simpl. rewrite lookup_insert_eq. simpl. eauto.
Qed.

(** X8. A second assignment to a field erases the first: assigning [v1]
    and then [v2] leaves exactly the world that assigning [v2] alone leaves,
    both in the session state and in the instance dictionary. *)
Theorem second_write_overwrites w instance f ik v1 v2 :
  session_field w instance f = true →
  instance_key_of w instance = Some ik →
  valid_user_key (field_key ik f) = true →
  ∃ w1,
    py_setattr (VRef instance) f v1 w = (Ok tt, w1) ∧
    py_setattr (VRef instance) f v2 w1 = py_setattr (VRef instance) f v2 w.
Proof.
  intros Hf Hik Hv.
  pose proof (session_field_not_stamp _ _ _ _ Hf Hik) as Hne.
  destruct (set_stamped w instance f ik v1 Hik Hv) as (o & Ho & Hset1).
  destruct (set_stamped w instance f ik v2 Hik Hv) as (o' & Ho' & Hset2).
  rewrite Ho in Ho'. injection Ho' as <-.
  set (w1 := cached w instance o f (VWrapper v1 (field_key ik f) f instance)
               (<[field_key ik f := v1]> (session_state w))) in *.
  assert (Hik1 : instance_key_of w1 instance = Some ik)
    by (unfold w1; by rewrite cached_instance_key_of).
  assert (Hf1 : session_field w1 instance f = true)
    by (unfold w1; by rewrite cached_session_field).
  destruct (set_stamped w1 instance f ik v2 Hik1 Hv) as (o1 & Ho1 & Hset).
  exists w1. split; [by rewrite setattr_session_field|].
  rewrite (setattr_session_field _ _ _ _ Hf1), (setattr_session_field _ _ _ _ Hf).
  rewrite Hset, Hset2. unfold w1, cached in Ho1 |- *. simpl in Ho1 |- *.
  rewrite lookup_insert_eq in Ho1. injection Ho1 as <-. simpl.
  by rewrite !insert_insert_eq.
Qed.

(** X9. The fields of one instance do not interfere: assigning [f] leaves
    the session-state entry of any other field name [g] as it was, and what
    a read of [g] returns is the same before and after. *)
Theorem other_field_unaffected w instance f g ik v :
  f ≠ g →
  session_field w instance f = true →
  instance_key_of w instance = Some ik →
  valid_user_key (field_key ik f) = true →
  ∃ w1,
    py_setattr (VRef instance) f v w = (Ok tt, w1) ∧
    session_state w1 !! field_key ik g = session_state w !! field_key ik g ∧
    (SessionVar__get__ g (Some instance) w1).1 =
      (SessionVar__get__ g (Some instance) w).1.
Proof.
  intros Hfg Hf Hik Hv.
  pose proof (session_field_not_stamp _ _ _ _ Hf Hik) as Hne.
  destruct (set_stamped w instance f ik v Hik Hv) as (o & Ho & Hset).
  set (w1 := cached w instance o f (VWrapper v (field_key ik f) f instance)
               (<[field_key ik f := v]> (session_state w))) in *.
  assert (Hik1 : instance_key_of w1 instance = Some ik)
    by (unfold w1; by rewrite cached_instance_key_of).
  assert (Hkeys : field_key ik f ≠ field_key ik g)
    by (intros Heq; by apply field_key_name_inj in Heq).
  assert (Hst : session_state w1 !! field_key ik g = session_state w !! field_key ik g)
    by (unfold w1; simpl; by rewrite lookup_insert_ne).
  exists w1. split; [by rewrite setattr_session_field|]. split; [done|].
  rewrite !get_unfold, (make_key_stamped _ _ _ _ Hik),
    (make_key_stamped _ _ _ _ Hik1), Hst.
  destruct (valid_user_key (field_key ik g)); [|done].
  rewrite Ho. unfold w1, cached. simpl. by rewrite lookup_insert_eq.
Qed.

(** X10. Field keys and instance keys share one namespace: once [v] is
    stored in field [f] of the instance whose identifier is [k], a call with
    the identifier [k.f] finds the derived key taken and returns [v] itself,
    building nothing. *)
Theorem field_key_shadows_instance_key cls args kwargs (k f : string) m instance v w :
  kwargs !! "instance_key" = Some (VStr (k +:+ "." +:+ f)) →
  cls__dict__ cls !! "__module__" = Some (CValue m) →
  instance_key_of w instance =
    Some (VStr (make_instance_key m (cls__name__ cls) (VStr k))) →
  valid_user_key
    (field_key (VStr (make_instance_key m (cls__name__ cls) (VStr k))) f) = true →
  ∃ w1,
    SessionVar__set__ f instance v w = (Ok tt, w1) ∧
    MetaSessionState__call__ cls args kwargs w1 = (Ok v, w1).
Proof.
  intros Hk Hm Hik Hv.
  assert (Hsame :
    make_instance_key m (cls__name__ cls) (VStr (k +:+ "." +:+ f)) =
    field_key (VStr (make_instance_key m (cls__name__ cls) (VStr k))) f).
  { unfold make_instance_key, field_key. simpl. by rewrite !string_app_assoc. }
  destruct (set_stamped w instance f _ v Hik Hv) as (o & Ho & Hset).
  eexists. split; [exact Hset|].
  apply (call_hit _ _ _ _ m _ _ Hk Hm); rewrite Hsame; [done|].
  simpl. by rewrite lookup_insert_eq.
Qed.

(** X11. Only the text of the identifier counts: two identifiers that an
    f-string renders alike (the [str] "1" and the [int] 1, a value and a
    wrapper of it) name the same instance, the second call being a cache hit
    on the first. *)
Theorem identifiers_with_same_text cls args1 kwargs1 args2 kwargs2 id1 id2 r w0 w1 :
  kwargs1 !! "instance_key" = Some id1 →
  kwargs2 !! "instance_key" = Some id2 →
  py_format id1 = py_format id2 →
  MetaSessionState__call__ cls args1 kwargs1 w0 = (Ok r, w1) →
  MetaSessionState__call__ cls args2 kwargs2 w1 = (Ok r, w1).
Proof.
  intros Hk1 Hk2 Htext Hcall.
  destruct (call_returned _ _ _ _ _ _ _ Hk1 Hcall) as (m & Hm & Hv & Hr).
  assert (Hsame : make_instance_key m (cls__name__ cls) id2 =
                  make_instance_key m (cls__name__ cls) id1)
    by (unfold make_instance_key; by rewrite Htext).
  apply (call_hit _ _ _ id2 m); by rewrite ?Hsame.
Qed.

(** X12. A field outlives the call that built its instance: after a call
    returned the instance and a field of it was assigned [v], a later call
    with the same identifier returns that instance again, and reading the
    field then gives a wrapper of [v]. *)
Theorem field_survives_rerun cls args1 kwargs1 args2 kwargs2 id m ik instance f v w0 w1 :
  kwargs1 !! "instance_key" = Some id →
  kwargs2 !! "instance_key" = Some id →
  cls__dict__ cls !! "__module__" = Some (CValue m) →
  ik = make_instance_key m (cls__name__ cls) id →
  MetaSessionState__call__ cls args1 kwargs1 w0 = (Ok (VRef instance), w1) →
  instance_key_of w1 instance = Some (VStr ik) →
  session_field w1 instance f = true →
  valid_user_key (field_key (VStr ik) f) = true →
  ∃ w2 w3,
    py_setattr (VRef instance) f v w1 = (Ok tt, w2) ∧
    MetaSessionState__call__ cls args2 kwargs2 w2 = (Ok (VRef instance), w2) ∧
    py_getattr (VRef instance) f w2 =
      (Ok (VWrapper v (field_key (VStr ik) f) f instance), w3).
Proof.
  intros Hk1 Hk2 Hm -> Hcall Hik Hf Hv.
  destruct (call_returned _ _ _ _ _ _ _ Hk1 Hcall) as (m' & Hm' & Hvk & Hr).
  rewrite Hm in Hm'. injection Hm' as <-.
  pose proof (session_field_not_stamp _ _ _ _ Hf Hik) as Hne.
  destruct (set_stamped w1 instance f _ v Hik Hv) as (o & Ho & Hset).
  set (ik := make_instance_key m (cls__name__ cls) id) in *.
  set (w2 := cached w1 instance o f (VWrapper v (field_key (VStr ik) f) f instance)
               (<[field_key (VStr ik) f := v]> (session_state w1))) in *.
  assert (Hik2 : instance_key_of w2 instance = Some (VStr ik))
    by (unfold w2; by rewrite cached_instance_key_of).
  assert (Hf2 : session_field w2 instance f = true)
    by (unfold w2; by rewrite cached_session_field).
  destruct (get_stamped w2 instance f _ Hik2 Hv) as (o2 & _ & Hget).
  simpl in Hget. rewrite lookup_insert_eq in Hget. simpl in Hget.
  eexists w2, _. split; [by rewrite setattr_session_field|]. split.
  - apply (call_hit _ _ _ id m); [done|done|done|].
    unfold w2. simpl. rewrite lookup_insert_ne; [done|].
    apply field_key_not_instance_key.
  - by rewrite getattr_session_field.
Qed.

(** X13. Nothing is ever deleted from the session state: an entry present
    before an attribute read or an attribute assignment, on any value, is
    still present after it. *)
Theorem store_keys_never_removed v name x w key :
  is_Some (session_state w !! key) →
  is_Some (session_state (py_getattr v name w).2 !! key) ∧
  is_Some (session_state (py_setattr v name x w).2 !! key).
Proof.
  intros Hin. split; [by rewrite getattr_keeps_state|].
  revert w Hin. induction v as [| | | | | | instance | |v IH k d i]; intros w Hin;
    simpl; try done.
  - unfold object__setattr__. py_unfold.
    destruct (heap w !! instance) as [o|] eqn:Ho; [|done].
    assert (Hdict : is_Some (session_state
              (instance__dict__setitem instance name x w).2 !! key))
      by (unfold instance__dict__setitem; by rewrite Ho).
    destruct (type_lookup (obj_class o) name) as [[[]|]|]; try done.
    rewrite set_unfold.
    destruct (SessionVar_make_key _ instance w) as [[fk|e] w']; [|done].
    destruct (valid_user_key fk); [|done]. rewrite Ho. simpl.
    destruct (decide (fk = key)) as [->|Hne];
      [rewrite lookup_insert_eq; eauto | by rewrite lookup_insert_ne].
  - unfold Wrapper__setattr__.
    destruct (name_in name Wrapper_slots); [done|by apply IH].
Qed.

(** X14. Reading or assigning a field of one instance leaves every other
    object of the heap as it was, and the instance itself keeps its class. *)
Theorem field_access_touches_one_instance name instance x w other :
  other ≠ instance →
  heap (SessionVar__get__ name (Some instance) w).2 !! other = heap w !! other ∧
  heap (SessionVar__set__ name instance x w).2 !! other = heap w !! other ∧
  class_of (SessionVar__get__ name (Some instance) w).2 instance = class_of w instance ∧
  class_of (SessionVar__set__ name instance x w).2 instance = class_of w instance.
Proof.
  intros Hne. rewrite get_unfold, set_unfold.
  destruct (SessionVar_make_key name instance w) as [[key|e] w']; [|done].
  destruct (valid_user_key key); [|done].
  destruct (heap w !! instance) as [o|] eqn:Ho; [|done]. simpl.
  rewrite !lookup_insert_ne by done.
  repeat split; unfold class_of; simpl; by rewrite lookup_insert_eq, Ho.
Qed.

(** X16. A default that the class body gives to an annotated field is
    lost: [__new__] replaces it with the descriptor, and on an instance whose
    field key is absent from the session state the field reads as a wrapper
    of [None], not of the default. *)
Theorem annotated_default_discarded name bases class_dict names f v0 :
  default (CAnnotations []) (class_dict !! "__annotations__") = CAnnotations names →
  f ∈ names →
  class_dict !! f = Some (CValue v0) →
  ∃ cls,
    MetaSessionState__new__ name bases class_dict = Ok cls ∧
    type_lookup cls f = Some (CValue (VSessionVar f)) ∧
    ∀ w instance o ik,
      heap w !! instance = Some o →
      obj_class o = cls →
      instance_key_of w instance = Some ik →
      valid_user_key (field_key ik f) = true →
      session_state w !! field_key ik f = None →
      ∃ w', py_getattr (VRef instance) f w =
            (Ok (VWrapper VNone (field_key ik f) f instance), w').
Proof.
  intros Ha Hf Hbody.
  destruct (new_total name bases class_dict names Ha) as (cls & Hnew & Hann).
  destruct (new_spec _ _ _ _ Hnew) as (_ & _ & Hdict).
  assert (Hlook : type_lookup cls f = Some (CValue (VSessionVar f))).
  { apply type_lookup_own. by rewrite Hdict, Hann, bool_decide_eq_true_2. }
  exists cls. split; [done|]. split; [done|].
  intros w instance o ik Ho Hcls Hik Hv Habs.
  assert (Hsf : session_field w instance f = true).
  { unfold session_field, class_of. rewrite Ho. simpl. rewrite Hcls, Hlook.
    by apply bool_decide_eq_true_2. }
  rewrite (getattr_session_field _ _ _ Hsf).
  destruct (get_stamped w instance f ik Hik Hv) as (o' & _ & ->).
  rewrite Habs. simpl. eauto.
Qed.
End Composition.

(** * Concrete runs for the further properties *)

(** X1 on [Counter.count]. *)
Lemma class_access_returns_descriptor_witness :
  ∃ cls,
    MetaSessionState__new__ "Counter" [] Counter_body = Ok cls ∧
    @type__getattribute__ demo_host cls "count" world_a =
      (Ok (VSessionVar "count"), world_a).
Proof.
  apply (@class_access_returns_descriptor demo_host "Counter" [] Counter_body
           ["count"] "count" world_a eq_refl).
  left.
Defined.

(** X2 on a [Counter] stamped by hand with a reserved key. *)
Lemma invalid_field_key_rejected_witness :
  instance_key_of world_reserved 1%positive = Some (VStr "$$ID-7") ∧
  @SessionVar__get__ demo_host "count" (Some 1%positive) world_reserved =
    (Raise StreamlitAPIException, world_reserved) ∧
  @SessionVar__set__ demo_host "count" 1%positive (VInt 1) world_reserved =
    (Raise StreamlitAPIException, world_reserved).
Proof.
  assert (Hik : instance_key_of world_reserved 1%positive = Some (VStr "$$ID-7"))
    by (vm_compute; reflexivity).
  split; [exact Hik|].
  exact (@invalid_field_key_rejected demo_host world_reserved 1%positive "count"
           (VStr "$$ID-7") (VInt 1) Hik eq_refl).
Defined.

(** X3 on [Hidden(instance_key="a")]. *)
Lemma invalid_instance_key_rejected_witness :
  @valid_user_key demo_host
    (@make_instance_key demo_host (VStr "$$ID") "Hidden" (VStr "a")) = false ∧
  @MetaSessionState__call__ demo_host Hidden [] (with_key "a") world_a =
    (Raise StreamlitAPIException, world_a).
Proof.
  split; [reflexivity|].
  apply (@invalid_instance_key_rejected demo_host Hidden [] (with_key "a")
           (VStr "a") (VStr "$$ID") world_a); vm_compute; reflexivity.
Defined.

(** X4 on [Counter(instance_key="a")] with an initializer that raises. *)
Lemma failed_initializer_registers_nothing_witness :
  @MetaSessionState__call__ failing_host Counter [] (with_key "a") empty_world =
    (Raise TypeError, stamped_world empty_world Counter "app_Counter_a") ∧
  session_state (stamped_world empty_world Counter "app_Counter_a")
    !! "app_Counter_a" = None.
Proof.
  assert (Hd : is_session_var (type_lookup Counter "__instance_key__") = false)
    by (vm_compute; reflexivity).
  assert (Habs : session_state (stamped_world empty_world Counter "app_Counter_a")
                   !! "app_Counter_a" = None) by (vm_compute; reflexivity).
  split; [|exact Habs].
  exact (proj1 (@failed_initializer_registers_nothing failing_host Counter []
                  (with_key "a") (VStr "a") (VStr "app") "app_Counter_a" TypeError
                  empty_world (stamped_world empty_world Counter "app_Counter_a")
                  eq_refl eq_refl eq_refl eq_refl eq_refl Hd eq_refl Habs)).
Defined.

(** X5 on a [Counter] that carries no stamp. *)
Lemma unstamped_instance_raises_witness :
  heap world_unstamped !! 1%positive = Some (Obj Counter ∅) ∧
  @SessionVar__get__ demo_host "count" (Some 1%positive) world_unstamped =
    (Raise AttributeError, world_unstamped) ∧
  @SessionVar__set__ demo_host "count" 1%positive (VInt 1) world_unstamped =
    (Raise AttributeError, world_unstamped).
Proof.
  assert (Ho : heap world_unstamped !! 1%positive = Some (Obj Counter ∅))
    by (vm_compute; reflexivity).
  assert (Hc : type_lookup (obj_class (Obj Counter ∅)) "__instance_key__" = None)
    by (vm_compute; reflexivity).
  split; [exact Ho|].
  exact (@unstamped_instance_raises demo_host world_unstamped 1%positive
           (Obj Counter ∅) "count" (VInt 1) Ho eq_refl Hc eq_refl).
Defined.

(** X6 on [class Keyed], whose body annotates [__instance_key__]. *)
Lemma annotated_stamp_unconstructible_witness :
  ∃ cls,
    MetaSessionState__new__ "Keyed" [] Keyed_body = Ok cls ∧
    (@MetaSessionState__call__ demo_host cls [] (with_key "a") empty_world).1 =
      Raise RecursionError ∧
    session_state
      (@MetaSessionState__call__ demo_host cls [] (with_key "a") empty_world).2 =
      session_state empty_world.
Proof.
  assert (Hmod : "__module__" ∉ ["__instance_key__"]).
  { intros Hin. apply list_elem_of_singleton in Hin. discriminate. }
  apply (@annotated_stamp_unconstructible demo_host "Keyed" [] Keyed_body
           ["__instance_key__"] [] (with_key "a") (VStr "a") (VStr "app")
           empty_world eq_refl); [left | exact Hmod | reflexivity ..].
Defined.

(** X7 on [a.count] after the entry of the field was set to [42] behind the
    instance. *)
Lemma read_follows_store_witness :
  session_field world_a 1%positive "count" = true ∧
  ∃ w',
    @py_getattr demo_host (VRef 1%positive) "count"
      (state_setitem "app_Counter_a.count" (VInt 42) world_a).2 =
    (Ok (VWrapper (VInt 42) "app_Counter_a.count" "count" 1%positive), w').
Proof.
  assert (Hf : session_field world_a 1%positive "count" = true)
    by (vm_compute; reflexivity).
  assert (Hik : instance_key_of world_a 1%positive = Some (VStr "app_Counter_a"))
    by (vm_compute; reflexivity).
  split; [exact Hf|].
  exact (@read_follows_store demo_host world_a 1%positive "count"
           (VStr "app_Counter_a") (VInt 42) Hf Hik eq_refl).
Defined.

(** X8 on [a.count = 2; a.count = 3]. *)
Lemma second_write_overwrites_witness :
  ∃ w1,
    @py_setattr demo_host (VRef 1%positive) "count" (VInt 2) world_a = (Ok tt, w1) ∧
    @py_setattr demo_host (VRef 1%positive) "count" (VInt 3) w1 =
      @py_setattr demo_host (VRef 1%positive) "count" (VInt 3) world_a.
Proof.
  assert (Hf : session_field world_a 1%positive "count" = true)
    by (vm_compute; reflexivity).
  assert (Hik : instance_key_of world_a 1%positive = Some (VStr "app_Counter_a"))
    by (vm_compute; reflexivity).
  exact (@second_write_overwrites demo_host world_a 1%positive "count"
           (VStr "app_Counter_a") (VInt 2) (VInt 3) Hf Hik eq_refl).
Defined.

(** X9 on [a.count = 2], seen from a field named [total]. *)
Lemma other_field_unaffected_witness :
  ∃ w1,
    @py_setattr demo_host (VRef 1%positive) "count" (VInt 2) world_a = (Ok tt, w1) ∧
    session_state w1 !! "app_Counter_a.total" =
      session_state world_a !! "app_Counter_a.total".
Proof.
  assert (Hf : session_field world_a 1%positive "count" = true)
    by (vm_compute; reflexivity).
  assert (Hik : instance_key_of world_a 1%positive = Some (VStr "app_Counter_a"))
    by (vm_compute; reflexivity).
  assert (Hne : "count" ≠ "total") by discriminate.
  destruct (@other_field_unaffected demo_host world_a 1%positive "count" "total"
              (VStr "app_Counter_a") (VInt 2) Hne Hf Hik eq_refl)
    as (w1 & Hset & Hst & _).
  exists w1. split; [exact Hset | exact Hst].
Defined.

(** X10 on [a.count = 5] followed by [Counter(instance_key="a.count")]. *)
Lemma field_key_shadows_instance_key_witness :
  ∃ w1,
    @SessionVar__set__ demo_host "count" 1%positive (VInt 5) world_a = (Ok tt, w1) ∧
    @MetaSessionState__call__ demo_host Counter [] (with_key "a.count") w1 =
      (Ok (VInt 5), w1).
Proof.
  assert (Hik : instance_key_of world_a 1%positive =
                Some (VStr (@make_instance_key demo_host (VStr "app")
                              (cls__name__ Counter) (VStr "a"))))
    by (vm_compute; reflexivity).
  assert (Hm : cls__dict__ Counter !! "__module__" = Some (CValue (VStr "app")))
    by (vm_compute; reflexivity).
  exact (@field_key_shadows_instance_key demo_host Counter [] (with_key "a.count")
           "a" "count" (VStr "app") 1%positive (VInt 5) world_a
           eq_refl Hm Hik eq_refl).
Defined.

(** X11 on [Counter(instance_key="1")] followed by [Counter(instance_key=1)]. *)
Lemma identifiers_with_same_text_witness :
  @py_format demo_host (VStr "1") = @py_format demo_host (VInt 1) ∧
  @MetaSessionState__call__ demo_host Counter [] {[ "instance_key" := VInt 1 ]}
    world_one = (Ok (VRef 1%positive), world_one).
Proof.
  assert (Htext : @py_format demo_host (VStr "1") = @py_format demo_host (VInt 1))
    by (vm_compute; reflexivity).
  assert (Hcall : @MetaSessionState__call__ demo_host Counter [] (with_key "1")
                    empty_world = (Ok (VRef 1%positive), world_one))
    by (vm_compute; reflexivity).
  split; [exact Htext|].
  exact (@identifiers_with_same_text demo_host Counter [] (with_key "1") []
           {[ "instance_key" := VInt 1 ]} (VStr "1") (VInt 1) (VRef 1%positive)
           empty_world world_one eq_refl eq_refl Htext Hcall).
Defined.

(** X12 on [a = Counter(1, instance_key="a"); a.count = 9;
    Counter(instance_key="a").count]. *)
Lemma field_survives_rerun_witness :
  ∃ w2 w3,
    @py_setattr demo_host (VRef 1%positive) "count" (VInt 9) world_a = (Ok tt, w2) ∧
    @MetaSessionState__call__ demo_host Counter [] (with_key "a") w2 =
      (Ok (VRef 1%positive), w2) ∧
    @py_getattr demo_host (VRef 1%positive) "count" w2 =
      (Ok (VWrapper (VInt 9) "app_Counter_a.count" "count" 1%positive), w3).
Proof.
  assert (Hcall : @MetaSessionState__call__ demo_host Counter [VInt 1]
                    (with_key "a") empty_world = (Ok (VRef 1%positive), world_a))
    by (vm_compute; reflexivity).
  assert (Hm : cls__dict__ Counter !! "__module__" = Some (CValue (VStr "app")))
    by (vm_compute; reflexivity).
  assert (Hf : session_field world_a 1%positive "count" = true)
    by (vm_compute; reflexivity).
  assert (Hik : instance_key_of world_a 1%positive = Some (VStr "app_Counter_a"))
    by (vm_compute; reflexivity).
  exact (@field_survives_rerun demo_host Counter [VInt 1] (with_key "a") []
           (with_key "a") (VStr "a") (VStr "app") "app_Counter_a" 1%positive
           "count" (VInt 9) empty_world world_a
           eq_refl eq_refl Hm eq_refl Hcall Hik Hf eq_refl).
Defined.

(** X13 on the registration of [a] across [a.count = 0]. *)
Lemma store_keys_never_removed_witness :
  is_Some (session_state world_a !! "app_Counter_a") ∧
  is_Some (session_state
             (@py_setattr demo_host (VRef 1%positive) "count" (VInt 0) world_a).2
           !! "app_Counter_a").
Proof.
  assert (Hin : is_Some (session_state world_a !! "app_Counter_a"))
    by (vm_compute; eauto).
  split; [exact Hin|].
  exact (proj2 (@store_keys_never_removed demo_host (VRef 1%positive) "count"
                  (VInt 0) world_a "app_Counter_a" Hin)).
Defined.

(** X14 on [a.count = 0] in a world that also holds [b]. *)
Lemma field_access_touches_one_instance_witness :
  heap (@SessionVar__set__ demo_host "count" 1%positive (VInt 0) world_ab).2
    !! 2%positive = heap world_ab !! 2%positive.
Proof.
  assert (Hne : 2%positive ≠ 1%positive) by discriminate.
  destruct (@field_access_touches_one_instance demo_host "count" 1%positive
              (VInt 0) world_ab 2%positive Hne) as (_ & Hset & _).
  exact Hset.
Defined.

(** X16 on [class Preset], whose body says [count: int = 3]. *)
Lemma annotated_default_discarded_witness :
  Preset_body !! "count" = Some (CValue (VInt 3)) ∧
  ∃ cls,
    MetaSessionState__new__ "Preset" [] Preset_body = Ok cls ∧
    type_lookup cls "count" = Some (CValue (VSessionVar "count")).
Proof.
  split; [reflexivity|].
  destruct (@annotated_default_discarded demo_host "Preset" [] Preset_body
              ["count"] "count" (VInt 3) eq_refl) as (cls & Hnew & Hlook & _);
    [left | reflexivity |].
  exists cls. split; [exact Hnew | exact Hlook].
Defined.
